(** * trade.py: daily market ranking for one FFXIV server

    A shallow embedding of [src/trade.py] and the properties of its
    window aggregation, name resolution, enrichment pipeline, ranking and
    run orchestration.

    Conventions of the embedding.
    - Python [int] is [Z]; prices and quantities of the market API are JSON
      integers.
    - Python [str] is a list of Unicode code points ([str]); file paths and
      dictionary keys, which are ASCII literals of the script, are [string].
    - A naive [datetime] is the number of microseconds its wall clock shows
      since 1970-01-01T00:00:00 on that same wall clock; [timedelta] is a
      number of microseconds.  Timestamps are taken inside the range
      [datetime] represents.
    - The outside world (HTTP endpoints, the host clock and time zone) is a
      value of type [world], read as one snapshot per run: the answer every
      HTTP call gets, a status code and the decoded JSON body, typed by the
      endpoint.  A [net] adds the requests that get no answer, for which
      [requests.get] raises; a [world] is read as the [net] in which every
      request is answered.
    - Effects of the script (requests sent, files written, text printed,
      [exit]) are threaded through the state-and-exception monad [M]. *)

From Stdlib Require Import ZArith Lia.
From stdpp Require Import gmap strings list fin_maps sorting.

Local Open Scope Z_scope.

(** ** Python strings *)

Definition str : Type := list N.

(** [Py_UNICODE_ISSPACE]: the code points [str.strip()] removes. *)
Definition isspace (c : N) : bool :=
  ((9 <=? c) && (c <=? 13) || (28 <=? c) && (c <=? 32)
   || (c =? 133) || (c =? 160) || (c =? 5760)
   || (8192 <=? c) && (c <=? 8202)
   || (c =? 8232) || (c =? 8233) || (c =? 8239) || (c =? 8287)
   || (c =? 12288))%N.

Fixpoint lstrip (s : str) : str :=
  match s with
  | c :: s' => if isspace c then lstrip s' else s
  | [] => []
  end.

Definition rstrip (s : str) : str := reverse (lstrip (reverse s)).

Definition strip (s : str) : str := rstrip (lstrip s).

(** ** The host clock: [datetime] *)

Module Clock.

Record host := Host {
  (** POSIX time at which the run reads its clock, in microseconds. *)
  instant : Z;
  (** Offset of the host's local zone east of UTC, in seconds, in force
      at a POSIX time given in seconds. *)
  utcoffset : Z → Z
}.

Definition usec : Z := 1000000.

Definition timedelta (days : Z) : Z := days * 86400 * usec.

Definition utcnow (h : host) : Z := instant h.

Definition now (h : host) : Z :=
  instant h + utcoffset h (instant h `div` usec) * usec.

Definition today (h : host) : Z := now h.

(** [datetime.fromtimestamp(ts)]: the local wall clock at POSIX second
    [ts]. *)
Definition fromtimestamp (h : host) (ts : Z) : Z :=
  (ts + utcoffset h ts) * usec.

(** [d.weekday()], Monday being 0; 1970-01-01 was a Thursday. *)
Definition weekday (d : Z) : Z := (d `div` timedelta 1 + 3) `mod` 7.

(** The host's local zone is UTC. *)
Definition utc_zone (h : host) : Prop := ∀ t, utcoffset h t = 0.

(** The host's local zone keeps one offset. *)
Definition fixed_zone (h : host) : Prop :=
  ∀ t, utcoffset h t = utcoffset h (instant h `div` usec).

End Clock.

(** ** Sale entries and the two aggregation loops *)

Record entry := Entry {
  timestamp : Z;
  pricePerUnit : Z;
  quantity : Z;
  onMannequin : bool
}.

(** The [for] loop of [get_market_data]: every entry is examined. *)
Fixpoint market_loop (h : Clock.host) (one_day_ago : Z)
    (market_board_sales : list entry) (daily_revenue total_quantity : Z)
    : Z * Z :=
  match market_board_sales with
  | [] => (daily_revenue, total_quantity)
  | e :: rest =>
      let purchase_time := Clock.fromtimestamp h (timestamp e) in
      if purchase_time >=? one_day_ago
      then market_loop h one_day_ago rest
             (daily_revenue + pricePerUnit e * quantity e)
             (total_quantity + quantity e)
      else market_loop h one_day_ago rest daily_revenue total_quantity
  end.

(** The [for] loop of [calculate_daily_revenue_and_quantity]: [break] at
    the first entry that is too old. *)
Fixpoint history_loop (h : Clock.host) (one_day_ago : Z)
    (recent_history : list entry) (daily_revenue total_quantity : Z)
    : Z * Z :=
  match recent_history with
  | [] => (daily_revenue, total_quantity)
  | e :: rest =>
      let entry_time := Clock.fromtimestamp h (timestamp e) in
      if entry_time >=? one_day_ago
      then history_loop h one_day_ago rest
             (daily_revenue + quantity e * pricePerUnit e)
             (total_quantity + quantity e)
      else (daily_revenue, total_quantity)
  end.

Definition calculate_daily_revenue_and_quantity (h : Clock.host)
    (recent_history : list entry) : Z * Z :=
  let now := Clock.now h in
  let one_day_ago := now - Clock.timedelta 1 in
  history_loop h one_day_ago recent_history 0 0.

(** The aggregation [get_market_data] runs on the entries it kept. *)
Definition market_aggregate (h : Clock.host) (market_board_sales : list entry)
    : Z * Z :=
  let now := Clock.utcnow h in
  let one_day_ago := now - Clock.timedelta 1 in
  market_loop h one_day_ago market_board_sales 0 0.

(** ** Sums the claims speak of *)

Definition revenue_sum (l : list entry) : Z :=
  foldr (λ e s, pricePerUnit e * quantity e + s) 0 l.

Definition quantity_sum (l : list entry) : Z :=
  foldr (λ e s, quantity e + s) 0 l.

(** Sold no earlier than 24 hours before the instant [t] (microseconds). *)
Definition since_day_before (t : Z) (e : entry) : Prop :=
  t - Clock.timedelta 1 ≤ timestamp e * Clock.usec.

(** Sold within the 24 hours that end at the instant [t]. *)
Definition within_day_before (t : Z) (e : entry) : Prop :=
  t - Clock.timedelta 1 ≤ timestamp e * Clock.usec ≤ t.

Global Instance since_day_before_dec t e : Decision (since_day_before t e) :=
  decide (t - Clock.timedelta 1 ≤ timestamp e * Clock.usec).

Global Instance within_day_before_dec t e : Decision (within_day_before t e) :=
  decide (t - Clock.timedelta 1 ≤ timestamp e * Clock.usec ≤ t).

(** Newest first. *)
Definition newest_first (l : list entry) : Prop :=
  Sorted (λ a b, timestamp b ≤ timestamp a) l.

(** ** The outside world *)

Record response (A : Type) := Response {
  status_code : Z;
  json : A
}.
Arguments Response {A} _ _.
Arguments status_code {A} _.
Arguments json {A} _.

Record world := World {
  host : Clock.host;
  (** [GET universalis.app/api/history/{server}/{item}]: the [entries]. *)
  history_api : str → Z → response (list entry);
  (** [GET cafemaker.wakingsands.com/Item/{item}]: the [Name]. *)
  cafemaker_api : Z → response (option str);
  (** [GET xivapi.com/Item/{item}?columns=Name]: the [Name]. *)
  xivapi_api : Z → response (option str);
  (** [GET universalis.app/api/marketable]. *)
  marketable_api : response (list Z)
}.

Inductive request :=
  | GET_history (server_name : str) (item_id : Z)
  | GET_cafemaker (item_id : Z)
  | GET_xivapi (item_id : Z)
  | GET_marketable.

(** The network of a run: the answers of a world, and the requests that
    get none (connection refused, time-out, no route). *)
Record net := Net {
  answers : world;
  unreachable : request → bool
}.

(** The network in which every request is answered. *)
Definition answering (w : world) : net := Net w (λ _, false).

Coercion answering : world >-> net.

(** ** Records the script builds *)

Module Data.
(** The decoded history with the two keys [get_market_data] adds. *)
Record t := Make {
  entries : list entry;
  daily_revenue : Z;
  total_quantity : Z
}.
End Data.

Module Item.
Record t := Make {
  id : Z;
  name : option str;
  daily_revenue : Z;
  total_quantity : Z
}.

End Item.

(** ** Files *)

Inductive report_line :=
  | Header_revenue
  | Header_quantity
  | Line_revenue (name : option str) (value : Z)
  | Line_quantity (name : option str) (value : Z).

(** What a file holds: a JSON array of integers, a JSON array of items, or
    the lines of a text report. *)
Inductive content :=
  | Ids (l : list Z)
  | Items (l : list Item.t)
  | Text (l : list report_line).

(** ** The monad of the script *)

Inductive exn :=
  | SystemExit (code : Z)
  | FileNotFoundError
  | TypeError
  | ConnectionError.

Inductive outcome (A : Type) :=
  | Return (a : A)
  | Raise (e : exn).
Arguments Return {A} _.
Arguments Raise {A} _.

Record state := State {
  files : gmap string content;
  requests : list request;
  stdout : list string
}.

Definition M (A : Type) : Type := state → outcome A * state.

Global Instance M_ret : MRet M := λ A a st, (Return a, st).

Global Instance M_bind : MBind M := λ A B f m st,
  match m st with
  | (Return a, st') => f a st'
  | (Raise e, st') => (Raise e, st')
  end.

Definition raise {A} (e : exn) : M A := λ st, (Raise e, st).

Definition exit {A} (code : Z) : M A := raise (SystemExit code).

Definition print (line : string) : M () := λ st,
  (Return (), State (files st) (requests st) (stdout st ++ [line])).

Definition sent (r : request) : M () := λ st,
  (Return (), State (files st) (requests st ++ [r]) (stdout st)).

(** [requests.get(url)]: the request is sent; it returns the answer, and
    raises where there is none. *)
Definition requests_get {A} (n : net) (r : request) (answer : response A)
    : M (response A) :=
  sent r;;
  if unreachable n r then raise ConnectionError else mret answer.

Definition exists_ (path : string) : M bool := λ st,
  (Return (bool_decide (is_Some (files st !! path))), st).

Definition open_r (path : string) : M content := λ st,
  match files st !! path with
  | Some c => (Return c, st)
  | None => (Raise FileNotFoundError, st)
  end.

Definition open_w (path : string) (c : content) : M () := λ st,
  (Return (), State (<[path := c]> (files st)) (requests st) (stdout st)).

Fixpoint mapM {A B} (f : A → M B) (l : list A) : M (list B) :=
  match l with
  | [] => mret []
  | x :: l' => y ← f x; ys ← mapM f l'; mret (y :: ys)
  end.

(** ** The functions of trade.py *)

Definition get_market_data (n : net) (server_name : str) (item_id : Z)
    : M (option Data.t) :=
  response ← requests_get n (GET_history server_name item_id)
                (history_api (answers n) server_name item_id);
  if status_code response =? 200 then
    let data := json response in
    let market_board_sales := filter (λ e, onMannequin e = false) data in
    let '(daily_revenue, total_quantity) :=
      market_aggregate (host (answers n)) market_board_sales in
    mret (Some (Data.Make data daily_revenue total_quantity))
  else mret None.

Definition get_item_name_from_xivapi (n : net) (item_id : Z)
    : M (option str) :=
  response ← requests_get n (GET_xivapi item_id)
                (xivapi_api (answers n) item_id);
  if status_code response =? 200 then mret (json response) else mret None.

Definition get_item_name_from_cafemaker (n : net) (item_id : Z)
    : M (option str) :=
  response ← requests_get n (GET_cafemaker item_id)
                (cafemaker_api (answers n) item_id);
  if status_code response =? 200 then mret (json response) else mret None.

(** [name is None or name.strip() == ""] *)
Definition no_name (name : option str) : bool :=
  match name with
  | None => true
  | Some s => bool_decide (strip s = [])
  end.

Definition get_item_name (n : net) (item_id : Z) : M (option str) :=
  name ← get_item_name_from_cafemaker n item_id;
  if no_name name then get_item_name_from_xivapi n item_id else mret name.

Definition fetch_item (n : net) (item_id : Z) (server_name : str)
    : M (option Item.t) :=
  item_data ← get_market_data n server_name item_id;
  match item_data with
  | Some item_data =>
      item_name ← get_item_name n item_id;
      mret (Some (Item.Make item_id item_name
                    (Data.daily_revenue item_data)
                    (Data.total_quantity item_data)))
  | None => mret None
  end.

(** [executor.map] yields the results in the order of [item_ids], and
    iterating over them raises what the first task that failed raised.
    The pool runs the tasks side by side: the log records their requests
    in the order of [item_ids], one of the orders the pool may produce, so
    only which requests a completed call has sent is meant, not their
    order.  The progress bar ([tqdm], on standard error) is left out. *)
Definition get_top_items (n : net) (server_name : str) (item_ids : list Z)
    : M (list Item.t) :=
  items ← mapM (λ item_id, fetch_item n item_id server_name) item_ids;
  let top_items := omap (λ item : option Item.t, item) items in
  mret top_items.

Definition save_item_ids_to_file (item_ids : content) (file_path : string)
    : M () :=
  open_w file_path item_ids.

Definition load_item_ids_from_file (file_path : string) : M content :=
  open_r file_path.

Definition save_top_items_to_txt (top_items : list Item.t)
    (file_path : string) (key : string) : M () :=
  if decide (key = "daily_revenue") then
    open_w file_path
      (Text (Header_revenue ::
             map (λ item, Line_revenue (Item.name item)
                            (Item.daily_revenue item)) top_items))
  else if decide (key = "total_quantity") then
    open_w file_path
      (Text (Header_quantity ::
             map (λ item, Line_quantity (Item.name item)
                            (Item.total_quantity item)) top_items))
  else open_w file_path (Text []).

Definition is_Sat (h : Clock.host) : bool :=
  Clock.weekday (Clock.today h) =? 5.

Definition get_all_marketable_item_ids (n : net) : M (option (list Z)) :=
  response ← requests_get n GET_marketable (marketable_api (answers n));
  if status_code response =? 200 then
    let all_item_ids := json response in
    let filtered_item_ids := filter (λ item_id, item_id > 34000) all_item_ids in
    mret (Some filtered_item_ids)
  else mret None.

(** ** Built-ins the script relies on *)

(** [if item_ids:] on a value that is [None] or a list. *)
Definition truthy {A} (x : option (list A)) : bool :=
  match x with
  | Some (_ :: _) => true
  | _ => false
  end.

(** Placing [x] into a list already sorted by decreasing key, before the
    first element whose key is not larger. *)
Fixpoint insert_reverse {A} (key : A → Z) (x : A) (l : list A) : list A :=
  match l with
  | [] => [x]
  | y :: l' =>
      if key y <=? key x then x :: y :: l' else y :: insert_reverse key x l'
  end.

(** [sorted(l, key=key, reverse=True)]: by decreasing key, and stable. *)
Definition sorted_reverse {A} (key : A → Z) (l : list A) : list A :=
  foldr (insert_reverse key) [] l.

(** [list(set(l))]: each member once; the order in which Python iterates
    over a set is left open by the language, here it is that of
    [elements]. *)
Definition list_set (l : list Z) : list Z :=
  elements (list_to_set l : gset Z).

(** The script's reading of a decoded JSON file as a list of integers or a
    list of item dictionaries.  The script never inspects what it loaded;
    a file of another shape is outside what it is written for, and the
    embedding, which is typed, charges the run with a [TypeError] at the
    load.  The properties below are about stores whose files have the
    shape the script writes. *)
Definition as_ids (c : content) : M (list Z) :=
  match c with
  | Ids l => mret l
  | _ => raise TypeError
  end.

Definition as_items (c : content) : M (list Item.t) :=
  match c with
  | Items l => mret l
  | _ => raise TypeError
  end.

(** ** The script body *)

Definition server_name : str := [29483; 23567; 32982]%N.
Definition item_ids_file : string := "item_ids.json".
Definition previous_day_file_revenue : string :=
  "previous_day_top50_revenue.json".
Definition previous_day_file_quantity : string :=
  "previous_day_top50_quantity.json".
Definition results_file_revenue : string := "top_items_revenue.txt".
Definition results_file_quantity : string := "top_items_quantity.txt".

(** Lines 150-158: the catalogue is fetched on Saturdays and when no
    cached list exists, otherwise the cached list is read. *)
Definition main_item_ids (n : net) : M (list Z) :=
  cached ← exists_ item_ids_file;
  if is_Sat (host (answers n)) || negb cached then
    item_ids ← get_all_marketable_item_ids n;
    if truthy item_ids then
      save_item_ids_to_file (Ids (default [] item_ids)) item_ids_file;;
      mret (default [] item_ids)
    else
      print "Failed to fetch marketable item IDs.";;
      exit 1
  else
    load_item_ids_from_file item_ids_file ≫= as_ids.

(** Lines 160-163: on other days, with both lists of the previous run at
    hand, only their items are looked at. *)
Definition main_previous_top (n : net) (item_ids : list Z) : M (list Z) :=
  has_revenue ← exists_ previous_day_file_revenue;
  has_quantity ← exists_ previous_day_file_quantity;
  if negb (is_Sat (host (answers n))) && (has_revenue && has_quantity) then
    previous_top_items_revenue ←
      load_item_ids_from_file previous_day_file_revenue ≫= as_items;
    previous_top_items_quantity ←
      load_item_ids_from_file previous_day_file_quantity ≫= as_items;
    mret (list_set (map Item.id previous_top_items_revenue
                    ++ map Item.id previous_top_items_quantity))
  else mret item_ids.

(** Lines 167-173: the two rankings, their reports and their top 50. *)
Definition main_rank_and_save (top_items : list Item.t) : M () :=
  let top_items_revenue :=
    take 50 (sorted_reverse Item.daily_revenue top_items) in
  save_top_items_to_txt (take 20 top_items_revenue)
    results_file_revenue "daily_revenue";;
  save_item_ids_to_file (Items top_items_revenue) previous_day_file_revenue;;
  let top_items_quantity :=
    take 50 (sorted_reverse Item.total_quantity top_items) in
  save_top_items_to_txt (take 20 top_items_quantity)
    results_file_quantity "total_quantity";;
  save_item_ids_to_file (Items top_items_quantity) previous_day_file_quantity.

Definition main (n : net) : M () :=
  item_ids ← main_item_ids n;
  item_ids ← main_previous_top n item_ids;
  top_items ← get_top_items n server_name item_ids;
  main_rank_and_save top_items.

(** A run of the script on a file store, with nothing sent or printed
    yet, in a world that answers every request. *)
Definition run (w : world) (fs : gmap string content) : outcome () * state :=
  main w (State fs [] []).

(** The item ids whose market history a log of requests asks for. *)
Definition history_ids (log : list request) : list Z :=
  omap (λ r, match r with GET_history _ i => Some i | _ => None end) log.

(** The result a computation returns when it is started on an empty store;
    the network functions never read the store. *)
Definition value {A} (m : M A) : outcome A := (m (State ∅ [] [])).1.

(** The state after the requests [rs] were sent. *)
Definition after (st : state) (rs : list request) : state :=
  State (files st) (requests st ++ rs) (stdout st).

(** The leading run of elements of [l] that satisfy [P]. *)
Fixpoint leading_run {A} (P : A → Prop) `{!∀ x, Decision (P x)}
    (l : list A) : list A :=
  match l with
  | [] => []
  | x :: l' => if decide (P x) then x :: leading_run P l' else []
  end.

(** A string all of whose characters are white space. *)
Definition blank (s : str) : Prop := ∀ c, c ∈ s → isspace c = true.

(** The market fetch for an item succeeds. *)
Definition fetch_succeeds (w : world) (server_name : str) (item_id : Z)
    : Prop :=
  status_code (history_api w server_name item_id) = 200.

Global Instance fetch_succeeds_dec w server_name item_id :
  Decision (fetch_succeeds w server_name item_id) :=
  decide (status_code (history_api w server_name item_id) = 200).

(** What one item of the pipeline's output is, for the id it was made
    from. *)
Definition enriched (n : net) (s : str) (i : Z) (item : Item.t) : Prop :=
  ∃ d name,
    value (get_market_data n s i) = Return (Some d) ∧
    value (get_item_name n i) = Return name ∧
    item = Item.Make i name (Data.daily_revenue d) (Data.total_quantity d).

(** [sorted] is the list [l] put in decreasing order of [key], elements
    of equal key keeping the order they have in [l]. *)
Definition stable_descending {A} (key : A → Z) (l sorted : list A) : Prop :=
  sorted ≡ₚ l ∧
  StronglySorted (λ a b, key b ≤ key a) sorted ∧
  ∀ v, filter (λ x, key x = v) sorted = filter (λ x, key x = v) l.

(** The catalogue as [get_all_marketable_item_ids] keeps it. *)
Definition marketable_above (w : world) : list Z :=
  filter (λ item_id, item_id > 34000) (json (marketable_api w)).

(** The full catalogue has to be fetched: it is Saturday or no cached list
    exists. *)
Definition refresh_due (w : world) (fs : gmap string content) : Prop :=
  is_Sat (host w) = true ∨ fs !! item_ids_file = None.

(** ** Further notions *)

(** A sale with a price and a quantity that are not negative. *)
Definition nonneg_sale (e : entry) : Prop :=
  0 ≤ pricePerUnit e ∧ 0 ≤ quantity e.

(** On the local wall clock of [h], the sale is older than one day. *)
Definition too_old (h : Clock.host) (e : entry) : Prop :=
  Clock.fromtimestamp h (timestamp e) < Clock.now h - Clock.timedelta 1.

(** The name is one [get_item_name] keeps: a string with a character that
    is not white space. *)
Definition usable (name : option str) : Prop :=
  ∃ s, name = Some s ∧ ¬ blank s.


(** The lines [save_top_items_to_txt] writes for the two keys. *)
Definition revenue_report (top_items : list Item.t) : content :=
  Text (Header_revenue ::
        map (λ item, Line_revenue (Item.name item) (Item.daily_revenue item))
          top_items).

Definition quantity_report (top_items : list Item.t) : content :=
  Text (Header_quantity ::
        map (λ item, Line_quantity (Item.name item) (Item.total_quantity item))
          top_items).

(** ** Sample hosts, worlds and stores *)

(** A host on UTC, and one eight hours east of it (the zone of the game
    server the script is written for), [seconds] after the epoch. *)
Definition utc_host (seconds : Z) : Clock.host :=
  Clock.Host (seconds * Clock.usec) (λ _, 0).

Definition east_host (seconds : Z) : Clock.host :=
  Clock.Host (seconds * Clock.usec) (λ _, 28800).

(** A world in which every market history is [sales], the name sources
    answer [primary] and [secondary], and the catalogue is [catalog]. *)
Definition sample_world (h : Clock.host) (sales : list entry)
    (primary secondary : option str) (catalog : response (list Z)) : world :=
  World h (λ _ _, Response 200 sales) (λ _, Response 200 primary)
    (λ _, Response 200 secondary) catalog.

Definition Iron_Ore : str := [73; 114; 111; 110; 32; 79; 114; 101]%N.
Definition tie_kuang : str := [38081; 30719]%N.

Definition sample_item (item_id : Z) : Item.t := Item.Make item_id None 0 0.

(** The store a previous run left: a cached catalogue and two top lists
    with the ids 1, 2 and 2, 3. *)
Definition sample_store : gmap string content :=
  <[item_ids_file := Ids [34001; 34002]]>
  (<[previous_day_file_revenue := Items [sample_item 1; sample_item 2]]>
   (<[previous_day_file_quantity := Items [sample_item 2; sample_item 3]]>
    ∅)).

(** * Properties *)

(** ** The aggregation loops *)

Section Loops.
Context (h : Clock.host) (one_day_ago : Z).

Let recent (e : entry) : Prop :=
  one_day_ago ≤ Clock.fromtimestamp h (timestamp e).

Lemma market_loop_sums l r q :
  market_loop h one_day_ago l r q =
    (r + revenue_sum (filter recent l), q + quantity_sum (filter recent l)).
Proof.
  revert r q. induction l as [|e l IH]; intros r q; simpl.
  - f_equal; lia.
  - rewrite Z.geb_leb, filter_cons.
    destruct (Z.leb_spec one_day_ago (Clock.fromtimestamp h (timestamp e)))
      as [Hin|Hout]; destruct (decide (recent e)) as [Hr|Hr];
      unfold recent in Hr; try lia; rewrite IH; simpl; f_equal; lia.
Qed.

Lemma history_loop_sums l r q :
  history_loop h one_day_ago l r q =
    (r + revenue_sum (leading_run recent l),
     q + quantity_sum (leading_run recent l)).
Proof.
  revert r q. induction l as [|e l IH]; intros r q; simpl.
  - f_equal; lia.
  - rewrite Z.geb_leb.
    destruct (Z.leb_spec one_day_ago (Clock.fromtimestamp h (timestamp e)))
      as [Hin|Hout]; destruct (decide (recent e)) as [Hr|Hr];
      unfold recent in Hr; try lia.
    + rewrite IH; simpl; f_equal; lia.
    + simpl; f_equal; lia.
Qed.

End Loops.

(** On a list whose elements only get worse for a predicate that is
    downward closed along the order, the leading run is the whole filter. *)
Lemma leading_run_filter {A} (R : relation A) (P : A → Prop)
    `{!∀ x, Decision (P x)} (l : list A) :
  (∀ x y, R x y → P y → P x) →
  StronglySorted R l →
  leading_run P l = filter P l.
Proof.
  intros Hdown Hs. induction Hs as [|x l Hs IH Hall]; [done|].
  simpl. rewrite filter_cons. destruct (decide (P x)) as [Hx|Hx].
  - by rewrite IH.
  - destruct (filter P l) as [|y l'] eqn:Hf; [done|].
    assert (Hy : y ∈ filter P l) by (rewrite Hf; left).
    apply list_elem_of_filter in Hy as [Py Hy].
    rewrite Forall_forall in Hall. destruct Hx. apply (Hdown x y); auto.
Qed.

Lemma newest_first_strongly l :
  newest_first l → StronglySorted (λ a b, timestamp b ≤ timestamp a) l.
Proof.
  apply Sorted_StronglySorted. intros x y z Hxy Hyz. simpl in *. lia.
Qed.

(** What [calculate_daily_revenue_and_quantity] adds up on any input: the
    leading run of entries that are recent on the local wall clock. *)
Lemma calculate_leading_run h l :
  let recent e :=
    Clock.now h - Clock.timedelta 1 ≤ Clock.fromtimestamp h (timestamp e) in
  calculate_daily_revenue_and_quantity h l =
    (revenue_sum (leading_run recent l), quantity_sum (leading_run recent l)).
Proof.
  intros recent. unfold calculate_daily_revenue_and_quantity.
  by rewrite history_loop_sums.
Qed.

Lemma recent_local_fixed_zone h e :
  Clock.fixed_zone h →
  Clock.now h - Clock.timedelta 1 ≤ Clock.fromtimestamp h (timestamp e)
  ↔ since_day_before (Clock.instant h) e.
Proof.
  intros Hz. unfold since_day_before, Clock.now, Clock.fromtimestamp.
  rewrite (Hz (timestamp e)). unfold Clock.usec, Clock.timedelta. lia.
Qed.

Lemma recent_utc_zone h e :
  Clock.utc_zone h →
  Clock.utcnow h - Clock.timedelta 1 ≤ Clock.fromtimestamp h (timestamp e)
  ↔ since_day_before (Clock.instant h) e.
Proof.
  intros Hz. unfold since_day_before, Clock.utcnow, Clock.fromtimestamp.
  rewrite (Hz (timestamp e)). unfold Clock.usec, Clock.timedelta. lia.
Qed.

Lemma utc_zone_fixed h : Clock.utc_zone h → Clock.fixed_zone h.
Proof. intros Hz t. by rewrite !Hz. Qed.

(** What the loop of [get_market_data] adds up on any input. *)
Lemma market_aggregate_sums h l :
  let recent e :=
    Clock.utcnow h - Clock.timedelta 1 ≤ Clock.fromtimestamp h (timestamp e) in
  market_aggregate h l =
    (revenue_sum (filter recent l), quantity_sum (filter recent l)).
Proof.
  intros recent. unfold market_aggregate. by rewrite market_loop_sums.
Qed.

Lemma filter_recent_local h (l : list entry) :
  Clock.fixed_zone h →
  filter (λ e, Clock.now h - Clock.timedelta 1
               ≤ Clock.fromtimestamp h (timestamp e)) l
  = filter (since_day_before (Clock.instant h)) l.
Proof. intros Hz. apply list_filter_iff. intros e. by apply recent_local_fixed_zone. Qed.

Lemma filter_recent_utc h (l : list entry) :
  Clock.utc_zone h →
  filter (λ e, Clock.utcnow h - Clock.timedelta 1
               ≤ Clock.fromtimestamp h (timestamp e)) l
  = filter (since_day_before (Clock.instant h)) l.
Proof. intros Hz. apply list_filter_iff. intros e. by apply recent_utc_zone. Qed.

Lemma calculate_sums_fixed_zone h l :
  Clock.fixed_zone h →
  newest_first l →
  calculate_daily_revenue_and_quantity h l =
    (revenue_sum (filter (since_day_before (Clock.instant h)) l),
     quantity_sum (filter (since_day_before (Clock.instant h)) l)).
Proof.
  intros Hz Hs. rewrite calculate_leading_run.
  rewrite (leading_run_filter (λ a b, timestamp b ≤ timestamp a)).
  - by rewrite filter_recent_local.
  - intros x y Hxy. rewrite !recent_local_fixed_zone by done.
    unfold since_day_before, Clock.usec. lia.
  - by apply newest_first_strongly.
Qed.

(** Where the two loops read the same wall clock they agree on entries
    that come newest first. *)
Lemma aggregations_agree_in_utc h l :
  Clock.utc_zone h →
  newest_first l →
  calculate_daily_revenue_and_quantity h l = market_aggregate h l.
Proof.
  intros Hz Hs.
  rewrite calculate_sums_fixed_zone by auto using utc_zone_fixed.
  by rewrite market_aggregate_sums, filter_recent_utc.
Qed.

(** ** [str.strip] *)

Lemma lstrip_split s :
  ∃ pre, s = pre ++ lstrip s ∧ blank pre.
Proof.
  induction s as [|c s IH]; simpl.
  - exists []. split; [done|]. intros c Hc. by apply elem_of_nil in Hc.
  - destruct (isspace c) eqn:Hc.
    + destruct IH as (pre & Hs & Hpre). exists (c :: pre). split.
      * simpl. by f_equal.
      * intros c' Hc'. apply elem_of_cons in Hc' as [->|Hc']; auto.
    + exists []. split; [done|]. intros c' Hc'. by apply elem_of_nil in Hc'.
Qed.

Lemma lstrip_nil s : lstrip s = [] ↔ blank s.
Proof.
  induction s as [|c s IH]; simpl.
  - split; [|done]. intros _ c Hc. by apply elem_of_nil in Hc.
  - destruct (isspace c) eqn:Hc.
    + rewrite IH. split.
      * intros Hs c' Hc'. apply elem_of_cons in Hc' as [->|Hc']; auto.
      * intros Hs c' Hc'. apply Hs. by right.
    + split; [done|]. intros Hs.
      assert (isspace c = true) by (apply Hs; left). congruence.
Qed.

Lemma strip_nil s : strip s = [] ↔ blank s.
Proof.
  unfold strip, rstrip. split.
  - intros Hs. apply (f_equal reverse) in Hs.
    rewrite reverse_involutive, reverse_nil in Hs.
    apply lstrip_nil in Hs.
    destruct (lstrip_split s) as (pre & Heq & Hpre).
    intros c Hc. rewrite Heq in Hc. apply elem_of_app in Hc as [Hc|Hc]; auto.
    apply Hs. by apply elem_of_reverse.
  - intros Hs. apply lstrip_nil in Hs. rewrite Hs. done.
Qed.

Lemma no_name_spec name :
  no_name name = true ↔ name = None ∨ ∃ s, name = Some s ∧ blank s.
Proof.
  destruct name as [s|]; simpl.
  - rewrite bool_decide_eq_true, strip_nil. split.
    + intros Hs. right. by exists s.
    + intros [?|(s' & [= <-] & Hs)]; done.
  - split; [by left|done].
Qed.

(** ** Running the network functions *)

Lemma answers_answering (w : world) : answers (answering w) = w.
Proof. done. Qed.

Lemma unreachable_answering (w : world) r : unreachable (answering w) r = false.
Proof. done. Qed.

Lemma after_nil st : after st [] = st.
Proof. destruct st. unfold after. simpl. by rewrite app_nil_r. Qed.

Lemma after_after st rs1 rs2 : after (after st rs1) rs2 = after st (rs1 ++ rs2).
Proof. unfold after. simpl. by rewrite app_assoc. Qed.

Local Ltac run_M :=
  unfold value, after, requests_get, mbind, M_bind, mret, M_ret, sent, raise;
  simpl.

Lemma get_market_data_run (w : world) s i st :
  get_market_data w s i st =
    (Return (if decide (fetch_succeeds w s i) then
               let sales := filter (λ e, onMannequin e = false)
                              (json (history_api w s i)) in
               Some (Data.Make (json (history_api w s i))
                       (market_aggregate (host w) sales).1
                       (market_aggregate (host w) sales).2)
             else None),
     after st [GET_history s i]).
Proof.
  unfold get_market_data, fetch_succeeds. run_M.
  destruct (Z.eqb_spec (status_code (history_api w s i)) 200) as [He|He];
    destruct (decide _) as [Hd|Hd]; try done.
  by destruct (market_aggregate _ _).
Qed.

Lemma get_item_name_from_cafemaker_run (w : world) i st :
  get_item_name_from_cafemaker w i st =
    (Return (if status_code (cafemaker_api w i) =? 200
             then json (cafemaker_api w i) else None),
     after st [GET_cafemaker i]).
Proof.
  unfold get_item_name_from_cafemaker. run_M.
  by destruct (_ =? _).
Qed.

Lemma get_item_name_from_xivapi_run (w : world) i st :
  get_item_name_from_xivapi w i st =
    (Return (if status_code (xivapi_api w i) =? 200
             then json (xivapi_api w i) else None),
     after st [GET_xivapi i]).
Proof.
  unfold get_item_name_from_xivapi. run_M.
  by destruct (_ =? _).
Qed.

Lemma get_item_name_run (w : world) i :
  ∃ primary secondary rs,
    value (get_item_name_from_cafemaker w i) = Return primary ∧
    value (get_item_name_from_xivapi w i) = Return secondary ∧
    history_ids rs = [] ∧
    ∀ st,
      get_item_name w i st =
        (Return (if no_name primary then secondary else primary), after st rs).
Proof.
  eexists _, _,
    (GET_cafemaker i ::
     if no_name (if status_code (cafemaker_api w i) =? 200
                 then json (cafemaker_api w i) else None)
     then [GET_xivapi i] else []).
  split; [|split; [|split]].
  - unfold value. by rewrite get_item_name_from_cafemaker_run.
  - unfold value. by rewrite get_item_name_from_xivapi_run.
  - by destruct (no_name _).
  - intros st. unfold get_item_name. unfold mbind, M_bind.
    rewrite get_item_name_from_cafemaker_run.
    destruct (no_name _).
    + by rewrite get_item_name_from_xivapi_run, after_after.
    + done.
Qed.

Lemma fetch_item_run (w : world) i s :
  ∃ name rs,
    value (get_item_name w i) = Return name ∧
    history_ids rs = [i] ∧
    ∀ st,
      fetch_item w i s st =
        (Return (if decide (fetch_succeeds w s i) then
                   let sales := filter (λ e, onMannequin e = false)
                                  (json (history_api w s i)) in
                   Some (Item.Make i name
                           (market_aggregate (host w) sales).1
                           (market_aggregate (host w) sales).2)
                 else None),
         after st rs).
Proof.
  destruct (get_item_name_run w i) as (p & q & rs & _ & _ & Hrs & Hname).
  exists (if no_name p then q else p),
    (GET_history s i :: if decide (fetch_succeeds w s i) then rs else []).
  split; [|split].
  - unfold value. by rewrite Hname.
  - simpl. destruct (decide _); [by rewrite Hrs | done].
  - intros st. unfold fetch_item, mbind, M_bind.
    rewrite get_market_data_run. destruct (decide _); cbv beta iota zeta.
    + by rewrite Hname, after_after.
    + done.
Qed.

Lemma mapM_fetch_item_run (w : world) s ids :
  ∃ rs,
    history_ids rs = ids ∧
    ∀ st, ∃ results,
      mapM (λ i, fetch_item w i s) ids st = (Return results, after st rs) ∧
      Forall2 (λ i r, ∀ st', (fetch_item w i s st').1 = Return r) ids results.
Proof.
  induction ids as [|i ids (rs & Hrs & IH)].
  - exists []. split; [done|]. intros st. exists []. simpl.
    unfold mret, M_ret. by rewrite after_nil.
  - destruct (fetch_item_run w i s) as (n & rs1 & _ & Hrs1 & Hrun).
    exists (rs1 ++ rs). split.
    { unfold history_ids in *. by rewrite omap_app, Hrs1, Hrs. }
    intros st. destruct (IH (after st rs1)) as (results & Heq & Hall).
    eexists (_ :: results). simpl. unfold mbind, M_bind.
    rewrite Hrun, Heq, after_after. split; [done|].
    constructor; [|done]. intros st'. by rewrite Hrun.
Qed.

Lemma get_market_data_value (w : world) s i :
  value (get_market_data w s i) =
    Return (if decide (fetch_succeeds w s i) then
              let sales := filter (λ e, onMannequin e = false)
                             (json (history_api w s i)) in
              Some (Data.Make (json (history_api w s i))
                      (market_aggregate (host w) sales).1
                      (market_aggregate (host w) sales).2)
            else None).
Proof. unfold value. by rewrite get_market_data_run. Qed.

Lemma get_top_items_run (w : world) s ids :
  ∃ items rs,
    history_ids rs = ids ∧
    Forall2 (enriched w s) (filter (fetch_succeeds w s) ids) items ∧
    ∀ st, get_top_items w s ids st = (Return items, after st rs).
Proof.
  destruct (mapM_fetch_item_run w s ids) as (rs & Hrs & Hrun).
  destruct (Hrun (State ∅ [] [])) as (results & _ & Hall).
  exists (omap (λ r : option Item.t, r) results), rs.
  split; [done|]. split.
  - clear Hrun Hrs. induction Hall as [|i r ids results Hr Hall IH]; [constructor|].
    destruct (fetch_item_run w i s) as (name & rs1 & Hname & _ & Hfetch).
    specialize (Hr (State ∅ [] [])). rewrite Hfetch in Hr. simpl in Hr.
    injection Hr as <-. rewrite filter_cons.
    destruct (decide (fetch_succeeds w s i)) as [Hok|Hko]; simpl; [|done].
    constructor; [|done].
    eexists _, name. rewrite get_market_data_value, decide_True by done.
    split; [done|]. split; done.
  - intros st. destruct (Hrun st) as (results' & Heq & Hall').
    unfold get_top_items, mbind, M_bind. rewrite Heq. unfold mret, M_ret.
    do 2 f_equal. clear -Hall Hall'.
    revert results' Hall'. induction Hall as [|i r ids results Hr Hall IH];
      intros results' Hall'; inversion Hall' as [|? r' ? rest Hr' Hrest];
      subst; [done|].
    specialize (Hr (State ∅ [] [])). specialize (Hr' (State ∅ [] [])).
    rewrite Hr in Hr'. injection Hr' as <-.
    specialize (IH rest Hrest). simpl. destruct r; simpl; [f_equal|]; exact IH.
Qed.

(** ** [sorted(..., reverse=True)] *)

Section Sorting.
Context {A : Type} (key : A → Z).

Lemma insert_reverse_perm x l : insert_reverse key x l ≡ₚ x :: l.
Proof.
  induction l as [|y l IH]; simpl; [done|].
  destruct (key y <=? key x); [done|].
  rewrite IH. apply Permutation_swap.
Qed.

Lemma insert_reverse_sorted x l :
  StronglySorted (λ a b, key b ≤ key a) l →
  StronglySorted (λ a b, key b ≤ key a) (insert_reverse key x l).
Proof.
  induction 1 as [|y l Hs IH Hall]; simpl.
  - repeat constructor.
  - destruct (Z.leb_spec (key y) (key x)) as [Hle|Hgt].
    + constructor; [by constructor|].
      constructor; [done|].
      eapply Forall_impl; [exact Hall|]. simpl. intros z Hz. lia.
    + constructor; [done|].
      rewrite insert_reverse_perm. constructor; [lia|done].
Qed.

Lemma insert_reverse_filter v x l :
  filter (λ y, key y = v) (insert_reverse key x l)
  = filter (λ y, key y = v) (x :: l).
Proof.
  induction l as [|y l IH]; simpl; [done|].
  destruct (Z.leb_spec (key y) (key x)) as [Hle|Hgt]; [done|].
  rewrite (filter_cons _ y), IH, !(filter_cons _ x), (filter_cons _ y).
  destruct (decide (key x = v)), (decide (key y = v)); try done. lia.
Qed.

Lemma sorted_reverse_stable_descending l :
  stable_descending key l (sorted_reverse key l).
Proof.
  unfold stable_descending, sorted_reverse.
  induction l as [|x l (Hp & Hs & Hf)]; simpl.
  - repeat split; constructor.
  - split; [|split].
    + by rewrite insert_reverse_perm, Hp.
    + by apply insert_reverse_sorted.
    + intros v. by rewrite insert_reverse_filter, !filter_cons, Hf.
Qed.

End Sorting.

(** ** The script body *)

Lemma main_item_ids_fails (w : world) st :
  refresh_due w (files st) →
  status_code (marketable_api w) ≠ 200 ∨ marketable_above w = [] →
  main_item_ids w st =
    (Raise (SystemExit 1),
     State (files st) (requests st ++ [GET_marketable])
       (stdout st ++ ["Failed to fetch marketable item IDs."])).
Proof.
  intros Hdue Hbad. unfold main_item_ids, mbind, M_bind, exists_.
  rewrite ?answers_answering.
  assert (is_Sat (host w)
          || negb (bool_decide (is_Some (files st !! item_ids_file))) = true)
    as ->.
  { destruct Hdue as [Hsat|Hnone]; [by rewrite Hsat|].
    rewrite Hnone, orb_true_iff. right.
    rewrite bool_decide_eq_false_2; [done|]. by intros [? ?]. }
  unfold get_all_marketable_item_ids, requests_get, mbind, M_bind, sent,
    mret, M_ret.
  rewrite ?unreachable_answering, ?answers_answering. cbv beta iota.
  fold (marketable_above w).
  destruct (Z.eqb_spec (status_code (marketable_api w)) 200) as [He|He].
  - destruct Hbad as [?|Hnil]; [done|]. by rewrite Hnil.
  - done.
Qed.

Lemma main_item_ids_refreshes (w : world) st :
  refresh_due w (files st) →
  status_code (marketable_api w) = 200 →
  marketable_above w ≠ [] →
  main_item_ids w st =
    (Return (marketable_above w),
     State (<[item_ids_file := Ids (marketable_above w)]> (files st))
       (requests st ++ [GET_marketable]) (stdout st)).
Proof.
  intros Hdue Hok Hne. unfold main_item_ids, mbind, M_bind, exists_.
  rewrite ?answers_answering.
  assert (is_Sat (host w)
          || negb (bool_decide (is_Some (files st !! item_ids_file))) = true)
    as ->.
  { destruct Hdue as [Hsat|Hnone]; [by rewrite Hsat|].
    rewrite Hnone, orb_true_iff. right.
    rewrite bool_decide_eq_false_2; [done|]. by intros [? ?]. }
  unfold get_all_marketable_item_ids, requests_get, mbind, M_bind, sent,
    mret, M_ret.
  rewrite ?unreachable_answering, ?answers_answering. cbv beta iota.
  fold (marketable_above w). rewrite Hok. simpl.
  destruct (marketable_above w); done.
Qed.

Lemma main_item_ids_cached (w : world) st l :
  is_Sat (host w) = false →
  files st !! item_ids_file = Some (Ids l) →
  main_item_ids w st = (Return l, st).
Proof.
  intros Hsat Hfile. unfold main_item_ids, mbind, M_bind, exists_.
  rewrite ?answers_answering.
  rewrite Hsat, Hfile. rewrite bool_decide_eq_true_2 by by eexists.
  simpl. unfold load_item_ids_from_file, open_r. by rewrite Hfile.
Qed.

Lemma main_previous_top_state (w : world) ids st :
  (main_previous_top w ids st).2 = st.
Proof.
  unfold main_previous_top, mbind, M_bind, exists_.
  rewrite ?answers_answering.
  destruct (negb (is_Sat (host w)) && _); [|done].
  unfold load_item_ids_from_file, open_r.
  destruct (files st !! previous_day_file_revenue) as [[]|]; try done.
  simpl. destruct (files st !! previous_day_file_quantity) as [[]|]; done.
Qed.

Lemma main_previous_top_narrows (w : world) ids st revenue quantity :
  is_Sat (host w) = false →
  files st !! previous_day_file_revenue = Some (Items revenue) →
  files st !! previous_day_file_quantity = Some (Items quantity) →
  main_previous_top w ids st =
    (Return (list_set (map Item.id revenue ++ map Item.id quantity)), st).
Proof.
  intros Hsat Hr Hq. unfold main_previous_top, mbind, M_bind, exists_.
  rewrite ?answers_answering.
  rewrite Hsat, Hr, Hq. rewrite !bool_decide_eq_true_2 by by eexists.
  simpl. unfold load_item_ids_from_file, open_r. rewrite Hr. simpl.
  by rewrite Hq.
Qed.

Lemma main_rank_and_save_run top_items st :
  let revenue := sorted_reverse Item.daily_revenue top_items in
  let quantity := sorted_reverse Item.total_quantity top_items in
  main_rank_and_save top_items st =
    (Return (),
     State
       (<[previous_day_file_quantity := Items (take 50 quantity)]>
        (<[results_file_quantity :=
             Text (Header_quantity ::
                   map (λ item, Line_quantity (Item.name item)
                                  (Item.total_quantity item))
                     (take 20 (take 50 quantity)))]>
         (<[previous_day_file_revenue := Items (take 50 revenue)]>
          (<[results_file_revenue :=
               Text (Header_revenue ::
                     map (λ item, Line_revenue (Item.name item)
                                    (Item.daily_revenue item))
                       (take 20 (take 50 revenue)))]>
           (files st)))))
       (requests st) (stdout st)).
Proof. done. Qed.

Lemma list_set_spec l : NoDup (list_set l) ∧ ∀ i, i ∈ list_set l ↔ i ∈ l.
Proof.
  unfold list_set. split; [apply NoDup_elements|].
  intros i. by rewrite elem_of_elements, elem_of_list_to_set.
Qed.

(** Every step after the choice of the item ids leaves the cached list
    alone. *)
Lemma main_tail_keeps_item_ids (w : world) ids st :
  files
    ((item_ids ← main_previous_top w ids;
      top_items ← get_top_items w server_name item_ids;
      main_rank_and_save top_items) st).2 !! item_ids_file
  = files st !! item_ids_file.
Proof.
  unfold mbind, M_bind.
  pose proof (main_previous_top_state w ids st) as Hst.
  destruct (main_previous_top w ids st) as [[ids'|e] st']; simpl in Hst;
    subst st'; [|done].
  destruct (get_top_items_run w server_name ids') as (items & rs & _ & _ & ->).
  rewrite main_rank_and_save_run. simpl.
  by rewrite !lookup_insert_ne by done.
Qed.

Lemma main_previous_top_outcome (w : world) ids st :
  (main_previous_top w ids st).1 ≠ Raise (SystemExit 1).
Proof.
  unfold main_previous_top, mbind, M_bind, exists_.
  rewrite ?answers_answering.
  destruct (negb (is_Sat (host w)) && _); [|done].
  unfold load_item_ids_from_file, open_r.
  destruct (files st !! previous_day_file_revenue) as [[]|]; try done.
  simpl. destruct (files st !! previous_day_file_quantity) as [[]|]; done.
Qed.

(** ** Requests that get no answer *)

Lemma requests_get_run {A} (n : net) r (answer : response A) st :
  requests_get n r answer st =
    (if unreachable n r then Raise ConnectionError else Return answer,
     after st [r]).
Proof.
  unfold requests_get, mbind, M_bind, sent, raise, mret, M_ret, after.
  by destruct (unreachable n r).
Qed.

Lemma get_market_data_net (n : net) s i st :
  get_market_data n s i st =
    (if unreachable n (GET_history s i) then Raise ConnectionError
     else Return (if decide (fetch_succeeds (answers n) s i) then
                    let sales := filter (λ e, onMannequin e = false)
                                   (json (history_api (answers n) s i)) in
                    Some (Data.Make (json (history_api (answers n) s i))
                            (market_aggregate (host (answers n)) sales).1
                            (market_aggregate (host (answers n)) sales).2)
                  else None),
     after st [GET_history s i]).
Proof.
  unfold get_market_data, mbind, M_bind. rewrite requests_get_run.
  destruct (unreachable n (GET_history s i)); [done|].
  unfold fetch_succeeds, mret, M_ret.
  destruct (Z.eqb_spec (status_code (history_api (answers n) s i)) 200);
    destruct (decide _); try done.
  by destruct (market_aggregate _ _).
Qed.

Lemma get_item_name_from_cafemaker_net (n : net) i st :
  get_item_name_from_cafemaker n i st =
    (if unreachable n (GET_cafemaker i) then Raise ConnectionError
     else Return (if status_code (cafemaker_api (answers n) i) =? 200
                  then json (cafemaker_api (answers n) i) else None),
     after st [GET_cafemaker i]).
Proof.
  unfold get_item_name_from_cafemaker, mbind, M_bind.
  rewrite requests_get_run.
  destruct (unreachable n (GET_cafemaker i)); [done|].
  unfold mret, M_ret. by destruct (_ =? _).
Qed.

Lemma get_item_name_from_xivapi_net (n : net) i st :
  get_item_name_from_xivapi n i st =
    (if unreachable n (GET_xivapi i) then Raise ConnectionError
     else Return (if status_code (xivapi_api (answers n) i) =? 200
                  then json (xivapi_api (answers n) i) else None),
     after st [GET_xivapi i]).
Proof.
  unfold get_item_name_from_xivapi, mbind, M_bind.
  rewrite requests_get_run.
  destruct (unreachable n (GET_xivapi i)); [done|].
  unfold mret, M_ret. by destruct (_ =? _).
Qed.

(** A call of [get_item_name] ends the same way from every state, and
    sends no market request. *)
Lemma get_item_name_net (n : net) i :
  ∃ rs, history_ids rs = [] ∧
        ∀ st, get_item_name n i st = (value (get_item_name n i), after st rs).
Proof.
  unfold value, get_item_name, mbind, M_bind.
  rewrite get_item_name_from_cafemaker_net.
  destruct (unreachable n (GET_cafemaker i)) eqn:Hc.
  - exists [GET_cafemaker i]. split; [done|]. intros st.
    rewrite get_item_name_from_cafemaker_net. by rewrite Hc.
  - destruct (no_name _) eqn:Hn.
    + exists [GET_cafemaker i; GET_xivapi i]. split; [done|]. intros st.
      rewrite get_item_name_from_cafemaker_net, Hc, Hn.
      by rewrite !get_item_name_from_xivapi_net, after_after.
    + exists [GET_cafemaker i]. split; [done|]. intros st.
      by rewrite get_item_name_from_cafemaker_net, Hc, Hn.
Qed.

(** So does a call of [fetch_item], which sends one market request. *)
Lemma fetch_item_net (n : net) i s :
  ∃ rs, history_ids rs = [i] ∧
        ∀ st, fetch_item n i s st = (value (fetch_item n i s), after st rs).
Proof.
  destruct (get_item_name_net n i) as (rs & Hrs & Hname).
  unfold value, fetch_item, mbind, M_bind. rewrite get_market_data_net.
  destruct (unreachable n (GET_history s i)) eqn:Hh.
  - exists [GET_history s i]. split; [done|]. intros st.
    by rewrite get_market_data_net, Hh.
  - destruct (decide (fetch_succeeds (answers n) s i)) as [Hok|Hko];
      cbv beta iota zeta.
    + exists (GET_history s i :: rs). split; [simpl; by rewrite Hrs|].
      intros st. rewrite get_market_data_net, Hh, decide_True by done.
      cbv beta iota zeta. rewrite !Hname.
      destruct (value (get_item_name n i)); by rewrite after_after.
    + exists [GET_history s i]. split; [done|]. intros st.
      rewrite get_market_data_net, Hh, decide_False by done. done.
Qed.

(** What [fetch_item] ends with, from what its two calls end with. *)
Lemma fetch_item_value (n : net) i s :
  value (fetch_item n i s) =
    match value (get_market_data n s i) with
    | Raise e => Raise e
    | Return None => Return None
    | Return (Some d) =>
        match value (get_item_name n i) with
        | Raise e => Raise e
        | Return name =>
            Return (Some (Item.Make i name (Data.daily_revenue d)
                            (Data.total_quantity d)))
        end
    end.
Proof.
  destruct (get_item_name_net n i) as (rs & _ & Hname).
  unfold value at 1 2. unfold fetch_item, mbind, M_bind.
  rewrite get_market_data_net.
  destruct (unreachable n (GET_history s i)); [done|].
  destruct (decide _); cbv beta iota zeta; [|done].
  rewrite Hname. by destruct (value (get_item_name n i)).
Qed.

Lemma get_market_data_raises (n : net) s i e :
  value (get_market_data n s i) = Raise e → e = ConnectionError.
Proof.
  unfold value. rewrite get_market_data_net.
  destruct (unreachable n (GET_history s i)); simpl; congruence.
Qed.

Lemma get_item_name_raises (n : net) i e :
  value (get_item_name n i) = Raise e → e = ConnectionError.
Proof.
  unfold value, get_item_name, mbind, M_bind.
  rewrite get_item_name_from_cafemaker_net.
  destruct (unreachable n (GET_cafemaker i)); [simpl; congruence|].
  destruct (no_name _); [|done].
  rewrite get_item_name_from_xivapi_net.
  destruct (unreachable n (GET_xivapi i)); simpl; congruence.
Qed.

Lemma fetch_item_raises (n : net) i s e :
  value (fetch_item n i s) = Raise e → e = ConnectionError.
Proof.
  rewrite fetch_item_value.
  destruct (value (get_market_data n s i)) as [[d|]|e'] eqn:Hd; [|done|].
  - destruct (value (get_item_name n i)) as [name|e'] eqn:Hn; [done|].
    intros [= <-]. by eapply get_item_name_raises.
  - intros [= <-]. by eapply get_market_data_raises.
Qed.

(** The pool where every task returns. *)
Lemma mapM_fetch_item_returns (n : net) s ids :
  (∀ i, i ∈ ids → ∃ r, value (fetch_item n i s) = Return r) →
  ∃ results rs,
    history_ids rs = ids ∧
    Forall2 (λ i r, value (fetch_item n i s) = Return r) ids results ∧
    ∀ st, mapM (λ i, fetch_item n i s) ids st = (Return results, after st rs).
Proof.
  induction ids as [|i ids IH]; intros Hall.
  - exists [], []. split; [done|]. split; [constructor|]. intros st. simpl.
    unfold mret, M_ret. by rewrite after_nil.
  - destruct (Hall i) as [r Hr]; [left|].
    destruct IH as (results & rs & Hrs & Hres & Hrun).
    { intros j Hj. apply Hall. by right. }
    destruct (fetch_item_net n i s) as (rs1 & Hrs1 & Hone).
    exists (r :: results), (rs1 ++ rs). split.
    { unfold history_ids in *. by rewrite omap_app, Hrs1, Hrs. }
    split; [by constructor|]. intros st. simpl. unfold mbind, M_bind.
    by rewrite Hone, Hr, Hrun, after_after.
Qed.

(** The pool where some task raises. *)
Lemma mapM_fetch_item_raises (n : net) s ids i st :
  i ∈ ids →
  value (fetch_item n i s) = Raise ConnectionError →
  ∃ st', mapM (λ i, fetch_item n i s) ids st = (Raise ConnectionError, st').
Proof.
  intros Hi Hraise. revert st.
  induction ids as [|j ids IH]; intros st; [by apply elem_of_nil in Hi|].
  simpl. unfold mbind, M_bind.
  destruct (fetch_item_net n j s) as (rs1 & _ & Hone). rewrite Hone.
  destruct (value (fetch_item n j s)) as [r|e] eqn:Hj.
  - apply elem_of_cons in Hi as [->|Hi]; [congruence|].
    destruct (IH Hi (after st rs1)) as (st' & ->). by eexists.
  - apply fetch_item_raises in Hj as ->. by eexists.
Qed.

Lemma get_top_items_returns (n : net) s ids :
  (∀ i, i ∈ ids → ∃ r, value (fetch_item n i s) = Return r) →
  ∃ items rs,
    history_ids rs = ids ∧
    Forall2 (enriched n s) (filter (fetch_succeeds (answers n) s) ids) items ∧
    ∀ st, get_top_items n s ids st = (Return items, after st rs).
Proof.
  intros Hall.
  destruct (mapM_fetch_item_returns n s ids Hall)
    as (results & rs & Hrs & Hres & Hrun).
  exists (omap (λ r : option Item.t, r) results), rs.
  split; [done|]. split.
  - clear Hrun Hrs Hall.
    induction Hres as [|i r ids results Hr Hres IH]; [constructor|].
    rewrite fetch_item_value in Hr. rewrite filter_cons.
    assert (value (get_market_data n s i)
            = if unreachable n (GET_history s i) then Raise ConnectionError
              else Return (if decide (fetch_succeeds (answers n) s i) then
                             let sales := filter (λ e, onMannequin e = false)
                                            (json (history_api (answers n) s i))
                             in
                             Some (Data.Make
                                     (json (history_api (answers n) s i))
                                     (market_aggregate (host (answers n)) sales).1
                                     (market_aggregate (host (answers n)) sales).2)
                           else None)) as Hd.
    { unfold value. by rewrite get_market_data_net. }
    destruct (unreachable n (GET_history s i)); [by rewrite Hd in Hr|].
    destruct (decide (fetch_succeeds (answers n) s i)) as [Hok|Hko].
    + cbv zeta in Hd. rewrite Hd in Hr.
      destruct (value (get_item_name n i)) as [name|e] eqn:Hn; [|done].
      injection Hr as <-. simpl. constructor; [|done].
      eexists _, name. split; [exact Hd|]. split; done.
    + rewrite Hd in Hr. injection Hr as <-. done.
  - intros st. unfold get_top_items, mbind, M_bind. by rewrite Hrun.
Qed.

Lemma get_top_items_raises (n : net) s ids i st :
  i ∈ ids →
  value (fetch_item n i s) = Raise ConnectionError →
  ∃ st', get_top_items n s ids st = (Raise ConnectionError, st').
Proof.
  intros Hi Hraise.
  destruct (mapM_fetch_item_raises n s ids i st Hi Hraise) as (st' & Hrun).
  exists st'. unfold get_top_items, mbind, M_bind. by rewrite Hrun.
Qed.

(** * The claims *)

(** ** Window aggregation *)

(** C1, as the code has it: for every successful market-history fetch made
    on a host whose local zone is UTC, [get_market_data] returns the
    history with [daily_revenue] equal to the sum of
    [pricePerUnit * quantity], and [total_quantity] equal to the sum of
    [quantity], over exactly the entries that are not mannequin sales and
    whose timestamp is no earlier than 24 hours before the current UTC
    time; no upper end of the window is tested.  When no entry is kept
    (among them: no entry at all) both are 0. *)
Theorem get_market_data_sums_since_day_before w s i st :
  Clock.utc_zone (host w) →
  fetch_succeeds w s i →
  let kept :=
    filter (since_day_before (Clock.utcnow (host w)))
      (filter (λ e, onMannequin e = false) (json (history_api w s i))) in
  ∃ d st',
    get_market_data w s i st = (Return (Some d), st') ∧
    Data.daily_revenue d = revenue_sum kept ∧
    Data.total_quantity d = quantity_sum kept ∧
    (kept = [] → Data.daily_revenue d = 0 ∧ Data.total_quantity d = 0).
Proof.
  intros Hz Hok kept. rewrite get_market_data_run, decide_True by done.
  cbv zeta. rewrite market_aggregate_sums. cbv zeta.
  rewrite filter_recent_utc by done. fold kept.
  eexists _, _. split; [done|].
  cbn [fst snd Data.daily_revenue Data.total_quantity].
  unfold kept, Clock.utcnow.
  split; [done|]. split; [done|]. intros Hk. by rewrite Hk.
Qed.

Lemma get_market_data_sums_since_day_before_witness :
  ∃ d st',
    get_market_data
      (sample_world (utc_host 200000)
         [Entry 199000 10 3 false; Entry 199000 50 1 true; Entry 100 7 1 false]
         None None (Response 200 []))
      server_name 1 (State ∅ [] []) = (Return (Some d), st') ∧
    Data.daily_revenue d = 30 ∧ Data.total_quantity d = 3.
Proof.
  destruct (get_market_data_sums_since_day_before
              (sample_world (utc_host 200000)
                 [Entry 199000 10 3 false; Entry 199000 50 1 true;
                  Entry 100 7 1 false]
                 None None (Response 200 []))
              server_name 1 (State ∅ [] []))
    as (d & st' & Hrun & Hrev & Hqty & _).
  - intros t. reflexivity.
  - reflexivity.
  - exists d, st'. split; [exact Hrun|]. split.
    + rewrite Hrev. vm_compute. reflexivity.
    + rewrite Hqty. vm_compute. reflexivity.
Defined.

(** C1 as stated fails: a sale stamped one hour after the current UTC time
    does not lie within the 24 hours before it, and is counted. *)
Lemma get_market_data_counts_later_sale :
  let w := sample_world (utc_host 200000) [Entry 203600 7 1 false]
             None None (Response 200 []) in
  fetch_succeeds w server_name 1 ∧
  ∃ d,
    value (get_market_data w server_name 1) = Return (Some d) ∧
    Data.daily_revenue d = 7 ∧
    revenue_sum
      (filter (within_day_before (Clock.utcnow (host w)))
         (filter (λ e, onMannequin e = false)
            (json (history_api w server_name 1)))) = 0.
Proof.
  split; [reflexivity|]. eexists. split; [reflexivity|].
  split; vm_compute; reflexivity.
Qed.

(** C3, as the code has it: on entries that come newest first, and on a
    host whose zone keeps one offset,
    [calculate_daily_revenue_and_quantity] returns the sum of
    [pricePerUnit * quantity] and the sum of [quantity] over all the
    entries whose timestamp is no earlier than 24 hours before now; no
    upper end of the window is tested. *)
Theorem calculate_newest_first_sums h l :
  Clock.fixed_zone h →
  newest_first l →
  calculate_daily_revenue_and_quantity h l =
    (revenue_sum (filter (since_day_before (Clock.instant h)) l),
     quantity_sum (filter (since_day_before (Clock.instant h)) l)).
Proof. apply calculate_sums_fixed_zone. Qed.

Lemma calculate_newest_first_sums_witness :
  calculate_daily_revenue_and_quantity (east_host 200000)
    [Entry 199000 3 4 false; Entry 150000 2 1 false; Entry 100 5 2 false]
  = (14, 5).
Proof.
  rewrite (calculate_newest_first_sums (east_host 200000)
             [Entry 199000 3 4 false; Entry 150000 2 1 false;
              Entry 100 5 2 false]).
  - vm_compute. reflexivity.
  - intros t. reflexivity.
  - repeat constructor; simpl; lia.
Defined.

(** C3 as stated fails: with an old entry in front the loop stops at once,
    so the result is neither the sum over the window nor the same as for
    the entries in another order. *)
Lemma calculate_depends_on_order :
  let h := utc_host 200000 in
  let old := Entry 100 5 2 false in
  let fresh := Entry 199000 3 4 false in
  [old; fresh] ≡ₚ [fresh; old] ∧
  calculate_daily_revenue_and_quantity h [old; fresh] = (0, 0) ∧
  calculate_daily_revenue_and_quantity h [fresh; old] = (12, 4) ∧
  revenue_sum (filter (within_day_before (Clock.now h)) [old; fresh]) = 12 ∧
  quantity_sum (filter (within_day_before (Clock.now h)) [old; fresh]) = 4.
Proof.
  split; [apply Permutation_swap|]. repeat split; vm_compute; reflexivity.
Qed.

(** C4 fails on the code: on a host eight hours east of UTC and for a
    single sale made 30 hours ago (a list that is newest first), the loop
    of [get_market_data] counts the sale and
    [calculate_daily_revenue_and_quantity] does not. *)
Theorem aggregations_differ_east_of_utc :
  let h := east_host 200000 in
  let l := [Entry 92000 10 1 false] in
  let w := sample_world h l None None (Response 200 []) in
  newest_first l ∧
  market_aggregate h l = (10, 1) ∧
  value (get_market_data w server_name 1)
    = Return (Some (Data.Make l 10 1)) ∧
  calculate_daily_revenue_and_quantity h l = (0, 0).
Proof.
  split; [repeat constructor|]. repeat split; vm_compute; reflexivity.
Qed.

(** ** Name resolution *)

(** C5, as the code has it: [get_item_name] raises when the request to
    the primary source (cafemaker) gets no answer.  When the primary
    answers, it returns the primary's name whenever that name holds a
    character that is not white space, without asking the secondary;
    otherwise (a status other than 200, no name, the empty name, a name of
    white space only) it asks the secondary source (xivapi) and returns
    exactly what that yields, be it null or empty, and raises when the
    secondary's request gets no answer.  With primary [""] and secondary
    ["Iron Ore"] it returns ["Iron Ore"]; with primary ["铁矿"] it returns
    ["铁矿"] whatever the secondary. *)
Theorem get_item_name_prefers_primary (n : net) i st :
  (unreachable n (GET_cafemaker i) = true →
   ∃ st', get_item_name n i st = (Raise ConnectionError, st')) ∧
  (unreachable n (GET_cafemaker i) = false →
   ∃ primary,
     value (get_item_name_from_cafemaker n i) = Return primary ∧
     (∀ s, primary = Some s → ¬ blank s →
           get_item_name n i st
           = (Return (Some s), after st [GET_cafemaker i])) ∧
     (primary = None ∨ (∃ s, primary = Some s ∧ blank s) →
      (unreachable n (GET_xivapi i) = true →
       ∃ st', get_item_name n i st = (Raise ConnectionError, st')) ∧
      (unreachable n (GET_xivapi i) = false →
       ∃ secondary,
         value (get_item_name_from_xivapi n i) = Return secondary ∧
         get_item_name n i st
         = (Return secondary, after st [GET_cafemaker i; GET_xivapi i])))) ∧
  (value (get_item_name_from_cafemaker n i) = Return (Some []) →
   value (get_item_name_from_xivapi n i) = Return (Some Iron_Ore) →
   ∃ st', get_item_name n i st = (Return (Some Iron_Ore), st')) ∧
  (value (get_item_name_from_cafemaker n i) = Return (Some tie_kuang) →
   ∃ st', get_item_name n i st = (Return (Some tie_kuang), st')).
Proof.
  assert (∀ s, ¬ blank s → no_name (Some s) = false) as Hkeep.
  { intros s Hs. destruct (no_name (Some s)) eqn:Hn; [|done].
    apply no_name_spec in Hn as [?|(s' & [= <-] & ?)]; done. }
  assert (∀ p, p = None ∨ (∃ s, p = Some s ∧ blank s) → no_name p = true)
    as Hfall by (intros p Hp; by apply no_name_spec).
  unfold value, get_item_name, mbind, M_bind.
  rewrite !get_item_name_from_cafemaker_net, !get_item_name_from_xivapi_net.
  destruct (unreachable n (GET_cafemaker i)) eqn:Hc; cbn [fst].
  { split; [intros _; by eexists|]. split; [done|]. split; done. }
  split; [done|]. split; [|split].
  - intros _. eexists. split; [done|]. split.
    + intros s Hp Hs. by rewrite Hp, (Hkeep s Hs).
    + intros Hp. rewrite (Hfall _ Hp), get_item_name_from_xivapi_net.
      rewrite after_after.
      destruct (unreachable n (GET_xivapi i)); split; try done.
      * intros _. by eexists.
      * intros _. by eexists.
  - intros [= Hp] Hs. rewrite Hp.
    assert (no_name (Some []) = true) as ->.
    { apply Hfall. right. exists []. split; [done|].
      intros c Hc'. by apply elem_of_nil in Hc'. }
    rewrite get_item_name_from_xivapi_net.
    destruct (unreachable n (GET_xivapi i)); [done|].
    injection Hs as ->. by eexists.
  - intros [= Hp]. rewrite Hp, Hkeep; [by eexists|]. intros Hb.
    assert (isspace 38081%N = true) by (apply Hb; left). done.
Qed.

(** C5 as stated fails: a primary name that is not empty, a single space,
    is not returned, the secondary name is; and where the primary's
    request gets no answer the call raises. *)
Lemma get_item_name_skips_blank_primary :
  let w := sample_world (utc_host 0) [] (Some [32%N]) (Some Iron_Ore)
             (Response 200 []) in
  value (get_item_name_from_cafemaker w 1) = Return (Some [32%N]) ∧
  [32%N] ≠ [] ∧
  value (get_item_name w 1) = Return (Some Iron_Ore) ∧
  value (get_item_name (Net w (λ _, true)) 1) = Raise ConnectionError.
Proof. repeat split; done. Qed.

(** ** The enrichment pipeline *)

(** C2, as the code has it: when every request made for the ids of the
    list is answered, [get_top_items] returns, in the order of the list,
    one item for each id of the list whose market history is answered
    with status 200 and nothing for an id answered with another status;
    the item of an id carries that id, the name [get_item_name] resolves
    for it (null included) and the [daily_revenue] and [total_quantity]
    of the fetched history.  When a request made for an id of the list
    gets no answer, the market request among them, [get_top_items] raises
    and returns no list: such an id is not skipped.  The requests made
    for an id are all answered when its market request and its two name
    requests are. *)
Theorem get_top_items_one_per_success (n : net) s ids st :
  ((∀ i, i ∈ ids → ∃ r, value (fetch_item n i s) = Return r) →
   ∃ items st',
     get_top_items n s ids st = (Return items, st') ∧
     Forall2 (enriched n s) (filter (fetch_succeeds (answers n) s) ids)
       items ∧
     (∀ i, ¬ fetch_succeeds (answers n) s i →
           ∀ item, item ∈ items → Item.id item ≠ i) ∧
     (∀ i d, value (get_market_data n s i) = Return (Some d) →
             value (get_item_name n i) = Return None →
             i ∈ ids →
             Item.Make i None (Data.daily_revenue d) (Data.total_quantity d)
             ∈ items)) ∧
  (∀ i, i ∈ ids →
        value (fetch_item n i s) = Raise ConnectionError →
        ∃ st', get_top_items n s ids st = (Raise ConnectionError, st')) ∧
  (∀ i, unreachable n (GET_history s i) = true →
        value (get_market_data n s i) = Raise ConnectionError ∧
        value (fetch_item n i s) = Raise ConnectionError) ∧
  (∀ i, (∃ r, value (fetch_item n i s) = Return r)
        ∨ value (fetch_item n i s) = Raise ConnectionError) ∧
  (∀ i, unreachable n (GET_history s i) = false →
        unreachable n (GET_cafemaker i) = false →
        unreachable n (GET_xivapi i) = false →
        ∃ r, value (fetch_item n i s) = Return r).
Proof.
  split; [|split; [|split; [|split]]].
  - intros Hall.
    destruct (get_top_items_returns n s ids Hall)
      as (items & rs & _ & Hen & Hrun).
    exists items, (after st rs). split; [done|]. split; [done|]. split.
    + intros i Hko item Hitem <-.
      apply list_elem_of_lookup in Hitem as [k Hk].
      destruct (Forall2_lookup_r _ _ _ _ _ Hen Hk) as (j & Hj & Hitem).
      apply list_elem_of_lookup_2, list_elem_of_filter in Hj as [Hok _].
      destruct Hitem as (d & name & _ & _ & ->). simpl in Hko. done.
    + intros i d Hd Hn Hi.
      assert (fetch_succeeds (answers n) s i) as Hok.
      { unfold value in Hd. rewrite get_market_data_net in Hd.
        destruct (unreachable n (GET_history s i)); [done|].
        by destruct (decide _). }
      assert (i ∈ filter (fetch_succeeds (answers n) s) ids) as Hin
        by by apply list_elem_of_filter.
      apply list_elem_of_lookup in Hin as [k Hk].
      destruct (Forall2_lookup_l _ _ _ _ _ Hen Hk) as (item & Hitem & Hi').
      destruct Hi' as (d' & name & Hd' & Hn' & ->).
      rewrite Hd in Hd'. rewrite Hn in Hn'.
      injection Hd' as <-. injection Hn' as <-.
      by eapply list_elem_of_lookup_2.
  - intros i Hi Hraise. by eapply get_top_items_raises.
  - intros i Hdown.
    assert (value (get_market_data n s i) = Raise ConnectionError) as Hd.
    { unfold value. by rewrite get_market_data_net, Hdown. }
    split; [done|]. by rewrite fetch_item_value, Hd.
  - intros i. destruct (value (fetch_item n i s)) as [r|e] eqn:Hv.
    + left. by exists r.
    + right. by apply fetch_item_raises in Hv as ->.
  - intros i Hh Hc Hx. rewrite fetch_item_value.
    unfold value. rewrite get_market_data_net, Hh.
    destruct (decide _); cbv beta iota zeta; [|by eexists].
    unfold get_item_name, mbind, M_bind.
    rewrite get_item_name_from_cafemaker_net, Hc.
    destruct (no_name _); [|by eexists].
    rewrite get_item_name_from_xivapi_net, Hx. by eexists.
Qed.

(** C2 as stated fails: with two ids whose market fetch would succeed and
    one, between them, whose market request gets no answer, no list is
    returned at all: the call raises. *)
Lemma get_top_items_raises_on_failed_fetch :
  let w := sample_world (utc_host 200000) [Entry 199000 10 3 false]
             None None (Response 200 []) in
  let n := Net w (λ r, match r with
                       | GET_history _ 2 => true
                       | _ => false
                       end) in
  value (get_market_data n server_name 1)
    = Return (Some (Data.Make [Entry 199000 10 3 false] 30 3)) ∧
  value (get_market_data n server_name 2) = Raise ConnectionError ∧
  value (get_market_data n server_name 3)
    = Return (Some (Data.Make [Entry 199000 10 3 false] 30 3)) ∧
  value (get_top_items n server_name [1; 2; 3]) = Raise ConnectionError.
Proof. repeat split; vm_compute; reflexivity. Qed.

(** ** Ranking *)

(** C6: for every list of enriched items the script ranks them by
    decreasing [daily_revenue] and, independently, by decreasing
    [total_quantity], items of equal metric keeping their order in the
    input; it saves the first 50 of each ranking for the next run and
    reports the first 20.  Items with revenues 5, 5, 3, 10 rank as
    10, 5, 5, 3 with the two 5s in input order. *)
Theorem ranking_stable_descending_truncated top_items st :
  ∃ revenue quantity st',
    stable_descending Item.daily_revenue top_items revenue ∧
    stable_descending Item.total_quantity top_items quantity ∧
    main_rank_and_save top_items st = (Return (), st') ∧
    files st' !! previous_day_file_revenue = Some (Items (take 50 revenue)) ∧
    files st' !! previous_day_file_quantity
      = Some (Items (take 50 quantity)) ∧
    files st' !! results_file_revenue
      = Some (Text (Header_revenue ::
                    map (λ item, Line_revenue (Item.name item)
                                   (Item.daily_revenue item))
                      (take 20 revenue))) ∧
    files st' !! results_file_quantity
      = Some (Text (Header_quantity ::
                    map (λ item, Line_quantity (Item.name item)
                                   (Item.total_quantity item))
                      (take 20 quantity))) ∧
    (∀ a b c d,
       top_items = [a; b; c; d] →
       Item.daily_revenue a = 5 → Item.daily_revenue b = 5 →
       Item.daily_revenue c = 3 → Item.daily_revenue d = 10 →
       revenue = [d; a; b; c]).
Proof.
  exists (sorted_reverse Item.daily_revenue top_items),
    (sorted_reverse Item.total_quantity top_items).
  eexists. split; [apply sorted_reverse_stable_descending|].
  split; [apply sorted_reverse_stable_descending|].
  split; [apply main_rank_and_save_run|]. cbn [files].
  split; [by rewrite !lookup_insert_ne, lookup_insert_eq by done|].
  split; [by rewrite lookup_insert_eq|].
  split.
  { rewrite !lookup_insert_ne, lookup_insert_eq by done.
    by rewrite take_take. }
  split.
  { rewrite !lookup_insert_ne, lookup_insert_eq by done.
    by rewrite take_take. }
  intros a b c d -> Ha Hb Hc Hd. unfold sorted_reverse. simpl.
  repeat (rewrite ?Ha, ?Hb, ?Hc, ?Hd; simpl). done.
Qed.

(** ** Run orchestration *)

(** C7: on a day other than Saturday, with both top lists of the previous
    run in the store and the item-id list at hand (cached, or fetched
    where no cache exists), the run completes and the items whose market
    history it requests are, each once, exactly the ids that occur in the
    previous revenue list or in the previous quantity list. *)
Theorem narrowed_ids_are_previous_top w fs revenue quantity :
  is_Sat (host w) = false →
  fs !! previous_day_file_revenue = Some (Items revenue) →
  fs !! previous_day_file_quantity = Some (Items quantity) →
  (∃ l, fs !! item_ids_file = Some (Ids l))
  ∨ (fs !! item_ids_file = None ∧ status_code (marketable_api w) = 200
     ∧ marketable_above w ≠ []) →
  ∃ st',
    run w fs = (Return (), st') ∧
    NoDup (history_ids (requests st')) ∧
    ∀ i, i ∈ history_ids (requests st')
         ↔ i ∈ map Item.id revenue ∨ i ∈ map Item.id quantity.
Proof.
  intros Hsat Hr Hq Hids. unfold run, main, mbind, M_bind.
  set (working := list_set (map Item.id revenue ++ map Item.id quantity)).
  destruct (get_top_items_run w server_name working)
    as (items & rs & Hrs & _ & Htop).
  destruct (list_set_spec (map Item.id revenue ++ map Item.id quantity))
    as [Hnd Hmem]. fold working in Hnd, Hmem.
  destruct Hids as [[l Hl]|(Hnone & Hok & Hne)].
  - rewrite (main_item_ids_cached w _ l) by done.
    rewrite (main_previous_top_narrows w l _ revenue quantity) by done.
    fold working. rewrite Htop, main_rank_and_save_run.
    eexists. split; [done|]. cbn [requests after].
    unfold history_ids in *. rewrite !omap_app, Hrs. simpl.
    split; [done|]. intros i. by rewrite Hmem, elem_of_app.
  - rewrite main_item_ids_refreshes by (done || by right).
    rewrite (main_previous_top_narrows w _ _ revenue quantity)
      by (cbn [files]; rewrite ?lookup_insert_ne by done; done).
    fold working. rewrite Htop, main_rank_and_save_run.
    eexists. split; [done|]. cbn [requests after].
    unfold history_ids in *. rewrite !omap_app, Hrs. simpl.
    split; [done|]. intros i. by rewrite Hmem, elem_of_app.
Qed.

Lemma narrowed_ids_are_previous_top_witness :
  ∃ st',
    run (sample_world (utc_host 0) [] None None (Response 404 []))
      sample_store = (Return (), st') ∧
    ∀ i, i ∈ history_ids (requests st') ↔ i ∈ [1; 2] ∨ i ∈ [2; 3].
Proof.
  destruct (narrowed_ids_are_previous_top
              (sample_world (utc_host 0) [] None None (Response 404 []))
              sample_store [sample_item 1; sample_item 2]
              [sample_item 2; sample_item 3])
    as (st' & Hrun & _ & Hmem).
  - reflexivity.
  - vm_compute. reflexivity.
  - vm_compute. reflexivity.
  - left. exists [34001; 34002]. vm_compute. reflexivity.
  - exists st'. split; [exact Hrun | exact Hmem].
Defined.

(** C8: when the catalogue has to be fetched (it is Saturday, or no cached
    list exists) and the fetch does not succeed, the run ends with exit
    code 1, having sent the catalogue request only (no market history or
    name was requested) and leaving every file as it was. *)
Theorem catalog_failure_aborts_before_enrichment w fs :
  refresh_due w fs →
  status_code (marketable_api w) ≠ 200 →
  ∃ st',
    run w fs = (Raise (SystemExit 1), st') ∧
    files st' = fs ∧
    requests st' = [GET_marketable] ∧
    stdout st' = ["Failed to fetch marketable item IDs."].
Proof.
  intros Hdue Hko. unfold run, main, mbind, M_bind.
  rewrite main_item_ids_fails by (done || by left).
  eexists. split; [done|]. repeat split; done.
Qed.

Lemma catalog_failure_aborts_before_enrichment_witness :
  ∃ st',
    run (sample_world (utc_host 0) [] None None (Response 503 [])) ∅
      = (Raise (SystemExit 1), st') ∧
    files st' = ∅ ∧ requests st' = [GET_marketable].
Proof.
  destruct (catalog_failure_aborts_before_enrichment
              (sample_world (utc_host 0) [] None None (Response 503 [])) ∅)
    as (st' & Hrun & Hfiles & Hreq & _).
  - right. reflexivity.
  - simpl. lia.
  - exists st'. split; [exact Hrun|]. split; [exact Hfiles | exact Hreq].
Defined.

(** C10: when the catalogue has to be fetched, the run ends with exit code
    1, every file left as it was, both when the fetch does not succeed and
    when it succeeds and no id above 34000 is in the catalogue; when the
    fetch succeeds and some id is above 34000, the run does not end with
    exit code 1 and the cache file holds those ids. *)
Theorem empty_catalog_aborts_as_well w fs :
  refresh_due w fs →
  (status_code (marketable_api w) ≠ 200 ∨ marketable_above w = [] →
   ∃ st', run w fs = (Raise (SystemExit 1), st') ∧ files st' = fs) ∧
  (status_code (marketable_api w) = 200 → marketable_above w ≠ [] →
   (run w fs).1 ≠ Raise (SystemExit 1) ∧
   files (run w fs).2 !! item_ids_file = Some (Ids (marketable_above w))) ∧
  (∀ i, i ∈ marketable_above w ↔ i ∈ json (marketable_api w) ∧ 34000 < i).
Proof.
  intros Hdue. split; [|split].
  - intros Hbad. unfold run, main, mbind, M_bind.
    rewrite main_item_ids_fails by done. by eexists.
  - intros Hok Hne. split.
    + unfold run, main, mbind, M_bind.
      rewrite main_item_ids_refreshes by done.
      match goal with |- context [main_previous_top _ ?ids ?st] =>
        pose proof (main_previous_top_outcome w ids st) as Hout;
        destruct (main_previous_top w ids st) as [[ids'|e] st1]
      end; [|simpl in *; intros [= ->]; by apply Hout].
      destruct (get_top_items_run w server_name ids')
        as (items & rs & _ & _ & ->).
      by rewrite main_rank_and_save_run.
    + unfold run, main. unfold mbind at 1. unfold M_bind at 1.
      rewrite main_item_ids_refreshes by done.
      rewrite main_tail_keeps_item_ids. cbn [files].
      by rewrite lookup_insert_eq.
  - intros i. unfold marketable_above. rewrite list_elem_of_filter.
    split; intros [? ?]; split; (done || lia).
Qed.

Lemma empty_catalog_aborts_as_well_witness :
  ∃ st',
    run (sample_world (utc_host 172800) [] None None
           (Response 200 [1; 2; 34000])) sample_store
      = (Raise (SystemExit 1), st') ∧
    files st' = sample_store.
Proof.
  destruct (empty_catalog_aborts_as_well
              (sample_world (utc_host 172800) [] None None
                 (Response 200 [1; 2; 34000])) sample_store)
    as (Hfail & _ & _).
  - left. reflexivity.
  - apply Hfail. right. reflexivity.
Defined.

(** * Further properties of the code *)

(** ** Sums *)

Lemma revenue_sum_perm l l' : l ≡ₚ l' → revenue_sum l = revenue_sum l'.
Proof. induction 1; simpl; lia. Qed.

Lemma quantity_sum_perm l l' : l ≡ₚ l' → quantity_sum l = quantity_sum l'.
Proof. induction 1; simpl; lia. Qed.

Lemma sums_nonneg l :
  Forall nonneg_sale l → 0 ≤ revenue_sum l ∧ 0 ≤ quantity_sum l.
Proof.
  induction 1 as [|e l [Hp Hq] _ [IHr IHq]]; simpl; [lia|].
  split; [|lia]. pose proof (Z.mul_nonneg_nonneg _ _ Hp Hq). lia.
Qed.

Lemma leading_run_sublist {A} (P : A → Prop) `{!∀ x, Decision (P x)} l :
  leading_run P l `sublist_of` l.
Proof.
  induction l as [|x l IH]; simpl; [done|].
  destruct (decide (P x)); [by constructor|]. apply sublist_nil_l.
Qed.

Lemma Forall_of_sublist {A} (P : A → Prop) (l1 l2 : list A) :
  l1 `sublist_of` l2 → Forall P l2 → Forall P l1.
Proof.
  induction 1 as [|x l1 l2 _ IH|x l1 l2 _ IH]; intros Hall; [done|..];
    inversion Hall; subst; [constructor|]; auto.
Qed.

(** ** The loop of [get_market_data] *)

(** X1: a market history answered with a status other than 200 gives
    [None]; the history request is the only effect of the call. *)
Theorem get_market_data_fetch_failed w s i st :
  status_code (history_api w s i) ≠ 200 →
  get_market_data w s i st = (Return None, after st [GET_history s i]).
Proof.
  intros Hko. rewrite get_market_data_run. by rewrite decide_False.
Qed.

Lemma get_market_data_fetch_failed_witness :
  get_market_data
    (World (utc_host 0) (λ _ _, Response 404 []) (λ _, Response 200 None)
       (λ _, Response 200 None) (Response 200 []))
    server_name 7 (State ∅ [] [])
  = (Return None, State ∅ [GET_history server_name 7] []).
Proof.
  apply (get_market_data_fetch_failed
           (World (utc_host 0) (λ _ _, Response 404 [])
              (λ _, Response 200 None) (λ _, Response 200 None)
              (Response 200 []))
           server_name 7 (State ∅ [] [])).
  simpl. lia.
Defined.

(** X2: the sums of [get_market_data] do not depend on the order of the
    entries. *)
Theorem market_aggregate_any_order h l l' :
  l ≡ₚ l' →
  market_aggregate h l = market_aggregate h l'.
Proof.
  intros Hp. rewrite !market_aggregate_sums. cbv zeta.
  assert (∀ P `{!∀ e : entry, Decision (P e)}, filter P l ≡ₚ filter P l')
    as Hf by (intros; by rewrite Hp).
  f_equal; [apply revenue_sum_perm | apply quantity_sum_perm]; apply Hf.
Qed.

Lemma market_aggregate_any_order_witness :
  market_aggregate (east_host 200000)
    [Entry 100 5 2 false; Entry 199000 3 4 false]
  = market_aggregate (east_host 200000)
      [Entry 199000 3 4 false; Entry 100 5 2 false].
Proof.
  apply (market_aggregate_any_order (east_host 200000)
           [Entry 100 5 2 false; Entry 199000 3 4 false]
           [Entry 199000 3 4 false; Entry 100 5 2 false]).
  apply Permutation_swap.
Defined.

(** X3: on a host whose zone keeps one offset, [get_market_data] adds up
    the entries stamped no earlier than 24 hours plus that offset before
    the current time: the window is the day before now only where the
    offset is 0. *)
Theorem market_aggregate_window_shifted h l :
  Clock.fixed_zone h →
  let shift :=
    Clock.utcoffset h (Clock.instant h `div` Clock.usec) * Clock.usec in
  market_aggregate h l =
    (revenue_sum (filter (since_day_before (Clock.instant h - shift)) l),
     quantity_sum (filter (since_day_before (Clock.instant h - shift)) l)).
Proof.
  intros Hz shift. rewrite market_aggregate_sums. cbv zeta.
  rewrite (list_filter_iff _ (since_day_before (Clock.instant h - shift))).
  - done.
  - intros e. unfold since_day_before, shift, Clock.utcnow,
      Clock.fromtimestamp.
    rewrite (Hz (timestamp e)). unfold Clock.usec, Clock.timedelta. lia.
Qed.

Lemma market_aggregate_window_shifted_witness :
  market_aggregate (east_host 200000)
    [Entry 199000 3 4 false; Entry 92000 10 1 false; Entry 80000 7 1 false]
  = (22, 5).
Proof.
  rewrite (market_aggregate_window_shifted (east_host 200000)
             [Entry 199000 3 4 false; Entry 92000 10 1 false;
              Entry 80000 7 1 false]).
  - vm_compute. reflexivity.
  - intros t. reflexivity.
Defined.

(** X4: when every entry of a fetched history is a mannequin sale, both
    sums are 0 on any host; the history that is returned still holds all
    the entries. *)
Theorem get_market_data_mannequin_only w s i :
  fetch_succeeds w s i →
  Forall (λ e, onMannequin e = true) (json (history_api w s i)) →
  value (get_market_data w s i)
  = Return (Some (Data.Make (json (history_api w s i)) 0 0)).
Proof.
  intros Hok Hall. rewrite get_market_data_value, decide_True by done.
  cbv zeta.
  assert (filter (λ e, onMannequin e = false) (json (history_api w s i)) = [])
    as ->; [|done].
  induction Hall as [|e l He _ IH]; [done|].
  rewrite filter_cons_False; [done|]. by rewrite He.
Qed.

Lemma get_market_data_mannequin_only_witness :
  value (get_market_data
           (sample_world (utc_host 200000)
              [Entry 199000 10 3 true; Entry 199500 50 1 true]
              None None (Response 200 []))
           server_name 1)
  = Return (Some (Data.Make
                    [Entry 199000 10 3 true; Entry 199500 50 1 true] 0 0)).
Proof.
  apply (get_market_data_mannequin_only
           (sample_world (utc_host 200000)
              [Entry 199000 10 3 true; Entry 199500 50 1 true]
              None None (Response 200 []))
           server_name 1).
  - reflexivity.
  - repeat constructor.
Defined.

(** X5: when no sale has a negative price or quantity, neither
    aggregation returns a negative sum. *)
Theorem aggregations_nonneg h l :
  Forall nonneg_sale l →
  0 ≤ (market_aggregate h l).1 ∧ 0 ≤ (market_aggregate h l).2 ∧
  0 ≤ (calculate_daily_revenue_and_quantity h l).1 ∧
  0 ≤ (calculate_daily_revenue_and_quantity h l).2.
Proof.
  intros Hall. rewrite market_aggregate_sums, calculate_leading_run.
  cbv zeta. simpl.
  match goal with |- context [filter ?P l] =>
    destruct (sums_nonneg (filter P l)) as [? ?];
      [eapply Forall_of_sublist; [apply sublist_filter | exact Hall]|]
  end.
  match goal with |- context [leading_run ?P l] =>
    destruct (sums_nonneg (leading_run P l)) as [? ?];
      [eapply Forall_of_sublist; [apply leading_run_sublist | exact Hall]|]
  end.
  done.
Qed.

Lemma aggregations_nonneg_witness :
  0 ≤ (market_aggregate (utc_host 200000)
         [Entry 199000 3 4 false; Entry 100 5 2 false]).1.
Proof.
  apply (aggregations_nonneg (utc_host 200000)
           [Entry 199000 3 4 false; Entry 100 5 2 false]).
  repeat constructor; simpl; lia.
Defined.

(** ** The loop of [calculate_daily_revenue_and_quantity] *)

Lemma history_loop_stops h c l1 e l2 r q :
  Clock.fromtimestamp h (timestamp e) < c →
  history_loop h c (l1 ++ e :: l2) r q = history_loop h c l1 r q.
Proof.
  intros Hold. revert r q. induction l1 as [|x l1 IH]; intros r q; simpl.
  - rewrite Z.geb_leb.
    destruct (Z.leb_spec c (Clock.fromtimestamp h (timestamp e)));
      [lia | done].
  - destruct (_ >=? _); [apply IH | done].
Qed.

Lemma leading_run_le_filter (P : entry → Prop) `{!∀ e, Decision (P e)} l :
  Forall nonneg_sale l →
  revenue_sum (leading_run P l) ≤ revenue_sum (filter P l) ∧
  quantity_sum (leading_run P l) ≤ quantity_sum (filter P l).
Proof.
  induction 1 as [|e l He Hall [IHr IHq]]; simpl; [lia|].
  rewrite filter_cons. destruct (decide (P e)); simpl; [lia|].
  destruct (sums_nonneg (filter P l)) as [? ?]; [|lia].
  eapply Forall_of_sublist; [apply sublist_filter | exact Hall].
Qed.

(** X6: [calculate_daily_revenue_and_quantity] ignores everything from the
    first entry on that is older than one day on the local wall clock,
    whatever comes after it. *)
Theorem calculate_ignores_after_old h l1 e l2 :
  too_old h e →
  calculate_daily_revenue_and_quantity h (l1 ++ e :: l2)
  = calculate_daily_revenue_and_quantity h l1.
Proof.
  intros Hold. unfold calculate_daily_revenue_and_quantity.
  by apply history_loop_stops.
Qed.

Lemma calculate_ignores_after_old_witness :
  calculate_daily_revenue_and_quantity (east_host 200000)
    ([Entry 199000 3 4 false] ++ Entry 100 5 2 false
       :: [Entry 199500 8 1 false])
  = calculate_daily_revenue_and_quantity (east_host 200000)
      [Entry 199000 3 4 false].
Proof.
  apply (calculate_ignores_after_old (east_host 200000)
           [Entry 199000 3 4 false] (Entry 100 5 2 false)
           [Entry 199500 8 1 false]).
  vm_compute. reflexivity.
Defined.

(** X7: on a host whose zone is UTC and for sales without a negative price
    or quantity, [calculate_daily_revenue_and_quantity] never returns more
    than the loop of [get_market_data] does on the same entries, in any
    order. *)
Theorem calculate_at_most_market_aggregate h l :
  Clock.utc_zone h →
  Forall nonneg_sale l →
  (calculate_daily_revenue_and_quantity h l).1 ≤ (market_aggregate h l).1 ∧
  (calculate_daily_revenue_and_quantity h l).2 ≤ (market_aggregate h l).2.
Proof.
  intros Hz Hall.
  unfold calculate_daily_revenue_and_quantity, market_aggregate.
  assert (Clock.now h = Clock.utcnow h) as ->.
  { unfold Clock.now, Clock.utcnow. rewrite Hz. lia. }
  rewrite history_loop_sums, market_loop_sums. simpl.
  match goal with |- context [leading_run ?P l] =>
    destruct (leading_run_le_filter P l Hall) as [? ?]
  end.
  lia.
Qed.

Lemma calculate_at_most_market_aggregate_witness :
  (calculate_daily_revenue_and_quantity (utc_host 200000)
     [Entry 100 5 2 false; Entry 199000 3 4 false]).1
  ≤ (market_aggregate (utc_host 200000)
       [Entry 100 5 2 false; Entry 199000 3 4 false]).1.
Proof.
  apply (calculate_at_most_market_aggregate (utc_host 200000)
           [Entry 100 5 2 false; Entry 199000 3 4 false]).
  - intros t. reflexivity.
  - repeat constructor; simpl; lia.
Defined.

(** X8: on a host whose zone is UTC, and on entries that come newest
    first, [calculate_daily_revenue_and_quantity] and the loop of
    [get_market_data] return the same sums. *)
Theorem aggregations_agree_newest_first_utc h l :
  Clock.utc_zone h →
  newest_first l →
  calculate_daily_revenue_and_quantity h l = market_aggregate h l.
Proof. apply aggregations_agree_in_utc. Qed.

Lemma aggregations_agree_newest_first_utc_witness :
  calculate_daily_revenue_and_quantity (utc_host 200000)
    [Entry 199000 3 4 false; Entry 150000 2 1 false; Entry 100 5 2 false]
  = market_aggregate (utc_host 200000)
      [Entry 199000 3 4 false; Entry 150000 2 1 false; Entry 100 5 2 false].
Proof.
  apply (aggregations_agree_newest_first_utc (utc_host 200000)
           [Entry 199000 3 4 false; Entry 150000 2 1 false;
            Entry 100 5 2 false]).
  - intros t. reflexivity.
  - repeat constructor; simpl; lia.
Defined.

(** ** Name resolution and the pipeline *)

Lemma no_name_usable name : no_name name = false ↔ usable name.
Proof.
  unfold usable. split.
  - intros Hn. destruct name as [s|]; [|done]. exists s. split; [done|].
    intros Hb. assert (no_name (Some s) = true) as Ht.
    { apply no_name_spec. right. by exists s. }
    congruence.
  - intros (s & -> & Hs). destruct (no_name (Some s)) eqn:Hn; [|done].
    apply no_name_spec in Hn as [?|(s' & [= <-] & ?)]; done.
Qed.

(** X9: [get_item_name] always asks the primary source and asks the
    secondary source exactly when the primary gave no usable name; it
    touches no file and prints nothing. *)
Theorem get_item_name_asks_secondary_when_needed (w : world) i st :
  ∃ primary,
    value (get_item_name_from_cafemaker w i) = Return primary ∧
    (usable primary →
     requests (get_item_name w i st).2 = requests st ++ [GET_cafemaker i]) ∧
    (¬ usable primary →
     requests (get_item_name w i st).2
     = requests st ++ [GET_cafemaker i; GET_xivapi i]) ∧
    files (get_item_name w i st).2 = files st ∧
    stdout (get_item_name w i st).2 = stdout st.
Proof.
  eexists. split.
  { unfold value. by rewrite get_item_name_from_cafemaker_run. }
  unfold get_item_name, mbind, M_bind.
  rewrite get_item_name_from_cafemaker_run.
  destruct (no_name _) eqn:Hn.
  - rewrite get_item_name_from_xivapi_run, after_after. simpl.
    split; [|split; [done | done]].
    intros Hu. apply no_name_usable in Hu. congruence.
  - simpl. split; [done|]. split; [|done]. intros Hu. destruct Hu.
    by apply no_name_usable.
Qed.

(** X10: when the primary source answers with a status other than 200,
    [get_item_name] returns what [get_item_name_from_xivapi] returns, which
    is [None] when that source does not answer 200 either. *)
Theorem get_item_name_primary_down w i :
  status_code (cafemaker_api w i) ≠ 200 →
  value (get_item_name w i) = value (get_item_name_from_xivapi w i) ∧
  (status_code (xivapi_api w i) ≠ 200 →
   value (get_item_name w i) = Return None).
Proof.
  intros Hko. unfold value, get_item_name, mbind, M_bind.
  rewrite get_item_name_from_cafemaker_run.
  destruct (Z.eqb_spec (status_code (cafemaker_api w i)) 200); [done|].
  simpl. rewrite !get_item_name_from_xivapi_run. split; [done|].
  intros Hko'. simpl.
  by destruct (Z.eqb_spec (status_code (xivapi_api w i)) 200).
Qed.

Lemma get_item_name_primary_down_witness :
  value (get_item_name
           (World (utc_host 0) (λ _ _, Response 200 [])
              (λ _, Response 500 (Some Iron_Ore))
              (λ _, Response 200 (Some tie_kuang)) (Response 200 []))
           3)
  = Return (Some tie_kuang).
Proof.
  destruct (get_item_name_primary_down
              (World (utc_host 0) (λ _ _, Response 200 [])
                 (λ _, Response 500 (Some Iron_Ore))
                 (λ _, Response 200 (Some tie_kuang)) (Response 200 []))
              3) as [Heq _].
  - simpl. lia.
  - rewrite Heq. reflexivity.
Defined.

(** X11: for an item whose market fetch fails, [fetch_item] returns [None]
    and asks no name source: the history request is its only request. *)
Theorem fetch_item_fetch_failed w i s st :
  status_code (history_api w s i) ≠ 200 →
  fetch_item w i s st = (Return None, after st [GET_history s i]).
Proof.
  intros Hko. unfold fetch_item, mbind, M_bind.
  rewrite get_market_data_run. by rewrite decide_False.
Qed.

Lemma fetch_item_fetch_failed_witness :
  fetch_item
    (World (utc_host 0) (λ _ _, Response 404 []) (λ _, Response 200 None)
       (λ _, Response 200 None) (Response 200 []))
    7 server_name (State ∅ [] [])
  = (Return None, State ∅ [GET_history server_name 7] []).
Proof.
  apply (fetch_item_fetch_failed
           (World (utc_host 0) (λ _ _, Response 404 [])
              (λ _, Response 200 None) (λ _, Response 200 None)
              (Response 200 []))
           7 server_name (State ∅ [] [])).
  simpl. lia.
Defined.

Lemma enriched_ids (w : world) s ids items :
  Forall2 (enriched w s) ids items → map Item.id items = ids.
Proof.
  induction 1 as [|i item ids items (d & n & _ & _ & ->) _ IH]; [done|].
  simpl. by f_equal.
Qed.

(** X12: when [get_top_items] returns, it has asked for the market
    history of every element of [item_ids], once each (as often as the id
    is listed) and of no other id, whatever the answers were; it has
    touched no file. *)
Theorem get_top_items_requests_every_id (n : net) s ids st items st' :
  get_top_items n s ids st = (Return items, st') →
  history_ids (requests st') ≡ₚ history_ids (requests st) ++ ids ∧
  files st' = files st.
Proof.
  intros Hrun.
  assert (∀ i, i ∈ ids → ∃ r, value (fetch_item n i s) = Return r) as Hall.
  { intros i Hi. destruct (value (fetch_item n i s)) as [r|e] eqn:Hv;
      [by exists r|].
    pose proof (fetch_item_raises _ _ _ _ Hv) as ->.
    destruct (get_top_items_raises n s ids i st Hi Hv) as (st'' & Hraise).
    congruence. }
  destruct (get_top_items_returns n s ids Hall) as (items' & rs & Hrs & _ & Hret).
  rewrite Hret in Hrun. injection Hrun as _ <-. simpl.
  unfold history_ids in *. by rewrite omap_app, Hrs.
Qed.

Lemma get_top_items_requests_every_id_witness :
  ∃ st',
    (get_top_items
       (sample_world (utc_host 200000) [Entry 199000 10 3 false]
          None None (Response 200 []))
       server_name [7; 5; 7] (State ∅ [] [])).2 = st' ∧
    history_ids (requests st') ≡ₚ [7; 5; 7].
Proof.
  eexists. split; [reflexivity|].
  eapply (get_top_items_requests_every_id
            (sample_world (utc_host 200000) [Entry 199000 10 3 false]
               None None (Response 200 []))
            server_name [7; 5; 7] (State ∅ [] [])).
  vm_compute. reflexivity.
Defined.

(** X13: the ids of the items [get_top_items] returns are the ids of the
    list whose market fetch succeeds, in the order of the list; so there
    are never more items than ids. *)
Theorem get_top_items_keeps_order (w : world) s ids st :
  ∃ items st',
    get_top_items w s ids st = (Return items, st') ∧
    map Item.id items = filter (fetch_succeeds w s) ids ∧
    (length items ≤ length ids)%nat.
Proof.
  destruct (get_top_items_run w s ids) as (items & rs & _ & Hall & Hrun).
  exists items, (after st rs). split; [done|].
  pose proof (enriched_ids _ _ _ _ Hall) as Hids. split; [done|].
  rewrite <-(length_map Item.id), Hids. apply length_filter.
Qed.

(** ** Files *)

(** X14: what [save_item_ids_to_file] wrote under a path is what
    [load_item_ids_from_file] reads back from it; the files under other
    paths read as before; a path that holds no file raises
    [FileNotFoundError]. *)
Theorem save_then_load c path st :
  (save_item_ids_to_file c path;; load_item_ids_from_file path) st
  = (Return c, State (<[path := c]> (files st)) (requests st) (stdout st)) ∧
  (∀ other,
     other ≠ path →
     ((save_item_ids_to_file c path;; load_item_ids_from_file other) st).1
     = (load_item_ids_from_file other st).1) ∧
  (files st !! path = None →
   load_item_ids_from_file path st = (Raise FileNotFoundError, st)).
Proof.
  unfold save_item_ids_to_file, load_item_ids_from_file, open_w, open_r,
    mbind, M_bind. cbn [files]. split; [|split].
  - by rewrite lookup_insert_eq.
  - intros other Hne. rewrite lookup_insert_ne by done.
    by destruct (files st !! other).
  - by intros ->.
Qed.

(** X15: called with a key other than ["daily_revenue"] and
    ["total_quantity"], [save_top_items_to_txt] still opens the file for
    writing and writes nothing: the file ends up empty, whatever it held. *)
Theorem save_top_items_to_txt_other_key top_items path key st :
  key ≠ "daily_revenue" →
  key ≠ "total_quantity" →
  save_top_items_to_txt top_items path key st
  = (Return (),
     State (<[path := Text []]> (files st)) (requests st) (stdout st)).
Proof.
  intros Hr Hq. unfold save_top_items_to_txt.
  by rewrite !decide_False by done.
Qed.

Lemma save_top_items_to_txt_other_key_witness :
  files (save_top_items_to_txt [sample_item 1] results_file_revenue "name"
           (State sample_store [] [])).2 !! results_file_revenue
  = Some (Text []).
Proof.
  rewrite (save_top_items_to_txt_other_key [sample_item 1]
             results_file_revenue "name" (State sample_store [] [])).
  - vm_compute. reflexivity.
  - intros H. discriminate H.
  - intros H. discriminate H.
Defined.

(** ** The catalogue and the day of the week *)

(** X16: [get_all_marketable_item_ids] sends the catalogue request and
    nothing else; on a status other than 200 it returns [None]; on 200 it
    returns the ids of the catalogue above 34000, in catalogue order, so
    that 34000 itself is never among them. *)
Theorem get_all_marketable_item_ids_filters (w : world) st :
  ∃ r,
    get_all_marketable_item_ids w st = (Return r, after st [GET_marketable]) ∧
    (status_code (marketable_api w) ≠ 200 → r = None) ∧
    (status_code (marketable_api w) = 200 →
     ∃ l, r = Some l ∧
          l `sublist_of` json (marketable_api w) ∧
          (∀ i, i ∈ l ↔ i ∈ json (marketable_api w) ∧ 34000 < i) ∧
          34000 ∉ l).
Proof.
  unfold get_all_marketable_item_ids, requests_get, mbind, M_bind, sent,
    mret, M_ret.
  rewrite ?unreachable_answering, ?answers_answering. cbv beta iota.
  destruct (Z.eqb_spec (status_code (marketable_api w)) 200) as [He|He].
  - eexists. split; [done|]. split; [done|]. intros _. eexists.
    split; [done|]. split; [apply sublist_filter|].
    assert (∀ i, i ∈ filter (λ item_id, item_id > 34000)
                      (json (marketable_api w))
                 ↔ i ∈ json (marketable_api w) ∧ 34000 < i) as Hmem.
    { intros i. rewrite list_elem_of_filter.
      split; intros [? ?]; split; (done || lia). }
    split; [done|]. intros Hin. apply Hmem in Hin. lia.
  - eexists. split; [done|]. split; done.
Qed.

(** X17: [is_Sat] holds exactly when the local wall clock of the host is
    in the third day of a week counted from 1970-01-01, the days that are
    Saturdays. *)
Theorem is_Sat_local_saturday h :
  is_Sat h = true
  ↔ ∃ k, Clock.timedelta (7 * k + 2) ≤ Clock.now h
         < Clock.timedelta (7 * k + 3).
Proof.
  unfold is_Sat, Clock.weekday, Clock.today, Clock.timedelta, Clock.usec.
  rewrite Z.eqb_eq. generalize (Clock.now h). intros d. split.
  - intros Hd. exists ((d `div` (1 * 86400 * 1000000) + 3) `div` 7).
    Z.div_mod_to_equations. lia.
  - intros (k & Hk). Z.div_mod_to_equations. lia.
Qed.

(** ** Whole runs *)

Lemma main_previous_top_saturday (w : world) ids st :
  is_Sat (host w) = true → main_previous_top w ids st = (Return ids, st).
Proof.
  intros Hsat. unfold main_previous_top, mbind, M_bind, exists_.
  rewrite ?answers_answering.
  by rewrite Hsat.
Qed.

Lemma main_previous_top_missing (w : world) ids st :
  files st !! previous_day_file_revenue = None
  ∨ files st !! previous_day_file_quantity = None →
  main_previous_top w ids st = (Return ids, st).
Proof.
  intros Hnone. unfold main_previous_top, mbind, M_bind, exists_.
  rewrite ?answers_answering.
  assert (bool_decide (is_Some (files st !! previous_day_file_revenue))
          && bool_decide (is_Some (files st !! previous_day_file_quantity))
          = false) as Hb.
  { apply andb_false_iff. destruct Hnone as [Hn|Hn]; [left|right];
      rewrite Hn; apply bool_decide_eq_false_2; by intros [? ?]. }
  rewrite Hb. by rewrite andb_false_r.
Qed.

Lemma fetch_item_no_catalog (w : world) i s st :
  GET_marketable ∈ requests (fetch_item w i s st).2 →
  GET_marketable ∈ requests st.
Proof.
  unfold fetch_item, mbind, M_bind. rewrite get_market_data_run.
  destruct (decide _); cbv beta iota zeta.
  - unfold get_item_name, mbind, M_bind.
    rewrite get_item_name_from_cafemaker_run.
    destruct (no_name _).
    + rewrite get_item_name_from_xivapi_run. simpl.
      rewrite !elem_of_app, !elem_of_cons, !elem_of_nil.
      intros [[[?|[?|?]]|[?|?]]|[?|?]]; done.
    + simpl. rewrite !elem_of_app, !elem_of_cons, !elem_of_nil.
      intros [[?|[?|?]]|[?|?]]; done.
  - simpl. rewrite !elem_of_app, !elem_of_cons, !elem_of_nil.
    intros [?|[?|?]]; done.
Qed.

Lemma get_top_items_no_catalog (w : world) s ids st :
  GET_marketable ∈ requests (get_top_items w s ids st).2 →
  GET_marketable ∈ requests st.
Proof.
  unfold get_top_items, mbind, M_bind.
  assert (∀ st, GET_marketable
                ∈ requests (mapM (λ i, fetch_item w i s) ids st).2 →
                GET_marketable ∈ requests st) as Hmap.
  { clear st. induction ids as [|i ids IH]; intros st; [done|].
    simpl. unfold mbind, M_bind.
    pose proof (fetch_item_no_catalog w i s st) as Hone.
    destruct (fetch_item w i s st) as [[r|e] st1]; [|done].
    specialize (IH st1).
    destruct (mapM (λ i0, fetch_item w i0 s) ids st1) as [[rs|e] st2];
      simpl in *; auto. }
  specialize (Hmap st).
  by destruct (mapM (λ i, fetch_item w i s) ids st) as [[rs|e] st1].
Qed.


Lemma main_item_ids_returned (w : world) st ids st0 :
  main_item_ids w st = (Return ids, st0) →
  files st0 !! item_ids_file = Some (Ids ids) ∧
  (requests st0 = requests st ∨ requests st0 = requests st ++ [GET_marketable]).
Proof.
  unfold main_item_ids, mbind, M_bind, exists_.
  rewrite ?answers_answering.
  destruct (is_Sat (host w) || _).
  - unfold get_all_marketable_item_ids, requests_get, mbind, M_bind, sent,
    mret, M_ret.
  rewrite ?unreachable_answering, ?answers_answering. cbv beta iota.
    destruct (status_code (marketable_api w) =? 200); [|done].
    destruct (filter _ _); simpl; [done|].
    intros [= <- <-]. simpl. split; [by rewrite lookup_insert_eq | by right].
  - unfold load_item_ids_from_file, open_r.
    destruct (files st !! item_ids_file) as [[l|l|l]|] eqn:Hf; simpl;
      try done.
    intros [= <- <-]. split; [done | by left].
Qed.

(** What a run that completes went through. *)
Lemma run_completed_inv (w : world) fs st' :
  run w fs = (Return (), st') →
  ∃ ids0 st0 ids1 items rs,
    main_item_ids w (State fs [] []) = (Return ids0, st0) ∧
    main_previous_top w ids0 st0 = (Return ids1, st0) ∧
    history_ids rs = ids1 ∧
    map Item.id items = filter (fetch_succeeds w server_name) ids1 ∧
    main_rank_and_save items (after st0 rs) = (Return (), st').
Proof.
  unfold run, main, mbind, M_bind. intros Hrun.
  destruct (main_item_ids w (State fs [] [])) as [[ids0|e] st0] eqn:H0;
    [|done].
  pose proof (main_previous_top_state w ids0 st0) as Hst.
  destruct (main_previous_top w ids0 st0) as [[ids1|e] st1] eqn:H1;
    simpl in Hst; subst st1; [|done].
  destruct (get_top_items_run w server_name ids1)
    as (items & rs & Hrs & Hall & Htop).
  rewrite Htop in Hrun. exists ids0, st0, ids1, items, rs.
  repeat split; try done. by eapply enriched_ids.
Qed.

Lemma ranked_elem_of (key : Item.t → Z) n items item :
  item ∈ take n (sorted_reverse key items) → item ∈ items.
Proof.
  intros Hin. apply subseteq_take in Hin.
  destruct (sorted_reverse_stable_descending key items) as (Hp & _ & _).
  by rewrite Hp in Hin.
Qed.

(** The files of a completed run, and where its saved items come from. *)
Lemma run_completed_files (w : world) fs st' :
  run w fs = (Return (), st') →
  ∃ ids0 items,
    files st' !! item_ids_file = Some (Ids ids0) ∧
    files st' !! previous_day_file_revenue
      = Some (Items (take 50 (sorted_reverse Item.daily_revenue items))) ∧
    files st' !! previous_day_file_quantity
      = Some (Items (take 50 (sorted_reverse Item.total_quantity items))) ∧
    files st' !! results_file_revenue
      = Some (revenue_report
                (take 20 (take 50 (sorted_reverse Item.daily_revenue items)))) ∧
    files st' !! results_file_quantity
      = Some (quantity_report
                (take 20 (take 50 (sorted_reverse Item.total_quantity items)))) ∧
    ∀ item, item ∈ items →
            fetch_succeeds w server_name (Item.id item) ∧
            Item.id item ∈ history_ids (requests st').
Proof.
  intros Hrun.
  destruct (run_completed_inv w fs st' Hrun)
    as (ids0 & st0 & ids1 & items & rs & H0 & H1 & Hrs & Hids & Hsave).
  apply main_item_ids_returned in H0 as [Hcache _].
  rewrite main_rank_and_save_run in Hsave. injection Hsave as <-.
  exists ids0, items. cbn [files after requests].
  split; [by rewrite !lookup_insert_ne by done|].
  split; [by rewrite !lookup_insert_ne, lookup_insert_eq by done|].
  split; [by rewrite lookup_insert_eq|].
  split; [by rewrite !lookup_insert_ne, lookup_insert_eq by done|].
  split; [by rewrite !lookup_insert_ne, lookup_insert_eq by done|].
  intros item Hitem.
  assert (Item.id item ∈ filter (fetch_succeeds w server_name) ids1) as Hin.
  { rewrite <-Hids. by apply list_elem_of_fmap_2. }
  apply list_elem_of_filter in Hin as [Hok Hin]. split; [done|].
  unfold history_ids in *. rewrite omap_app, Hrs, elem_of_app. by right.
Qed.


(** X18: in a run that reads a Saturday off its clock and whose catalogue
    fetch succeeds with some id above 34000, the run completes; its first
    request is the catalogue, the cache file holds the ids above 34000,
    and the market history is requested for exactly these ids, as often as
    the catalogue lists them, whatever top lists a previous run left. *)
Theorem run_on_saturday w fs :
  is_Sat (host w) = true →
  status_code (marketable_api w) = 200 →
  marketable_above w ≠ [] →
  ∃ st',
    run w fs = (Return (), st') ∧
    requests st' !! 0%nat = Some GET_marketable ∧
    history_ids (requests st') ≡ₚ marketable_above w ∧
    files st' !! item_ids_file = Some (Ids (marketable_above w)).
Proof.
  intros Hsat Hok Hne. unfold run, main, mbind, M_bind.
  rewrite main_item_ids_refreshes by (done || by left).
  rewrite main_previous_top_saturday by done.
  destruct (get_top_items_run w server_name (marketable_above w))
    as (items & rs & Hrs & _ & ->).
  rewrite main_rank_and_save_run. eexists. split; [done|].
  cbn [files after requests]. split; [done|]. split.
  - unfold history_ids in *. by rewrite !omap_app, Hrs.
  - by rewrite !lookup_insert_ne, lookup_insert_eq by done.
Qed.

Lemma run_on_saturday_witness :
  ∃ st',
    run (sample_world (utc_host 172800) [] None None
           (Response 200 [1; 34000; 34002; 34001])) sample_store
      = (Return (), st') ∧
    history_ids (requests st') ≡ₚ [34002; 34001].
Proof.
  destruct (run_on_saturday
              (sample_world (utc_host 172800) [] None None
                 (Response 200 [1; 34000; 34002; 34001])) sample_store)
    as (st' & Hrun & _ & Hids & _).
  - reflexivity.
  - reflexivity.
  - vm_compute. intros H. discriminate H.
  - exists st'. split; [exact Hrun | exact Hids].
Defined.

(** X19: on a day other than Saturday, with a cached id list and one of
    the two top lists of a previous run missing, the run completes without
    asking for the catalogue: the market history is requested for exactly
    the cached ids, as often as the list holds them, and the cache file is
    left as it was. *)
Theorem run_on_cached_list w fs l :
  is_Sat (host w) = false →
  fs !! item_ids_file = Some (Ids l) →
  fs !! previous_day_file_revenue = None
  ∨ fs !! previous_day_file_quantity = None →
  ∃ st',
    run w fs = (Return (), st') ∧
    history_ids (requests st') ≡ₚ l ∧
    (GET_marketable ∉ requests st') ∧
    files st' !! item_ids_file = Some (Ids l).
Proof.
  intros Hsat Hl Hnone. unfold run, main, mbind, M_bind.
  rewrite (main_item_ids_cached w _ l) by done.
  rewrite main_previous_top_missing by done.
  pose proof (get_top_items_no_catalog w server_name l (State fs [] []))
    as Hno.
  destruct (get_top_items_run w server_name l)
    as (items & rs & Hrs & _ & Htop).
  rewrite Htop in Hno |- *.
  rewrite main_rank_and_save_run. eexists. split; [done|].
  cbn [files after requests snd] in *. split; [by rewrite <-Hrs|]. split.
  - intros Hin. apply Hno in Hin. by apply elem_of_nil in Hin.
  - by rewrite !lookup_insert_ne by done.
Qed.

Lemma run_on_cached_list_witness :
  ∃ st',
    run (sample_world (utc_host 0) [] None None (Response 200 [40000]))
      (<[item_ids_file := Ids [34005; 34001]]> ∅)
      = (Return (), st') ∧
    history_ids (requests st') ≡ₚ [34005; 34001].
Proof.
  destruct (run_on_cached_list
              (sample_world (utc_host 0) [] None None (Response 200 [40000]))
              (<[item_ids_file := Ids [34005; 34001]]> ∅) [34005; 34001])
    as (st' & Hrun & Hids & _).
  - reflexivity.
  - vm_compute. reflexivity.
  - left. vm_compute. reflexivity.
  - exists st'. split; [exact Hrun | exact Hids].
Defined.

(** X20: after a run that completes, each of the two saved top lists has
    at most 50 items, both have the same length, each report holds the
    header and the lines of the first 20 items of its saved list, and
    every saved item belongs to an id whose market history was requested
    in this run and fetched with success. *)
Theorem completed_run_saves_rankings w fs st' :
  run w fs = (Return (), st') →
  ∃ revenue quantity,
    files st' !! previous_day_file_revenue = Some (Items revenue) ∧
    files st' !! previous_day_file_quantity = Some (Items quantity) ∧
    files st' !! results_file_revenue
      = Some (revenue_report (take 20 revenue)) ∧
    files st' !! results_file_quantity
      = Some (quantity_report (take 20 quantity)) ∧
    (length revenue ≤ 50)%nat ∧
    length quantity = length revenue ∧
    ∀ item, item ∈ revenue ∨ item ∈ quantity →
            fetch_succeeds w server_name (Item.id item) ∧
            Item.id item ∈ history_ids (requests st').
Proof.
  intros Hrun.
  destruct (run_completed_files w fs st' Hrun)
    as (ids0 & items & _ & Hr & Hq & Hrr & Hqr & Hitems).
  eexists _, _. split; [exact Hr|]. split; [exact Hq|].
  split; [exact Hrr|]. split; [exact Hqr|].
  destruct (sorted_reverse_stable_descending Item.daily_revenue items)
    as (Hpr & _ & _).
  destruct (sorted_reverse_stable_descending Item.total_quantity items)
    as (Hpq & _ & _).
  split; [rewrite length_take; lia|]. split.
  - by rewrite !length_take, Hpr, Hpq.
  - intros item [Hin|Hin]; apply Hitems; by eapply ranked_elem_of.
Qed.

Lemma completed_run_saves_rankings_witness :
  ∃ revenue,
    files (run (sample_world (utc_host 0) [Entry 0 5 2 false] None None
                  (Response 200 [])) sample_store).2
      !! previous_day_file_revenue = Some (Items revenue) ∧
    (length revenue ≤ 50)%nat.
Proof.
  destruct (completed_run_saves_rankings
              (sample_world (utc_host 0) [Entry 0 5 2 false] None None
                 (Response 200 [])) sample_store
              (run (sample_world (utc_host 0) [Entry 0 5 2 false] None None
                      (Response 200 [])) sample_store).2)
    as (revenue & quantity & Hr & _ & _ & _ & Hlen & _).
  - vm_compute. reflexivity.
  - exists revenue. split; [exact Hr | exact Hlen].
Defined.





(** X23: when a run completes and none of the market fetches it made
    succeeded, both saved top lists are empty and both reports hold their
    header alone. *)
Theorem run_without_success_saves_nothing w fs st' :
  run w fs = (Return (), st') →
  (∀ i, i ∈ history_ids (requests st') → ¬ fetch_succeeds w server_name i) →
  files st' !! previous_day_file_revenue = Some (Items []) ∧
  files st' !! previous_day_file_quantity = Some (Items []) ∧
  files st' !! results_file_revenue = Some (Text [Header_revenue]) ∧
  files st' !! results_file_quantity = Some (Text [Header_quantity]).
Proof.
  intros Hrun Hfail.
  destruct (run_completed_files w fs st' Hrun)
    as (ids0 & items & _ & Hr & Hq & Hrr & Hqr & Hitems).
  assert (items = []) as ->.
  { destruct items as [|item items]; [done|].
    destruct (Hitems item) as [Hok Hreq]; [left|].
    by apply Hfail in Hreq. }
  done.
Qed.

Lemma run_without_success_saves_nothing_witness :
  files (run (World (utc_host 0)
                (λ _ i, Response (if i =? 9 then 200 else 503) [])
                (λ _, Response 200 None) (λ _, Response 200 None)
                (Response 200 [])) sample_store).2
    !! previous_day_file_revenue = Some (Items []).
Proof.
  destruct (run_without_success_saves_nothing
              (World (utc_host 0)
                 (λ _ i, Response (if i =? 9 then 200 else 503) [])
                 (λ _, Response 200 None) (λ _, Response 200 None)
                 (Response 200 [])) sample_store
              (run (World (utc_host 0)
                      (λ _ i, Response (if i =? 9 then 200 else 503) [])
                      (λ _, Response 200 None) (λ _, Response 200 None)
                      (Response 200 [])) sample_store).2)
    as (Hr & _).
  - vm_compute. reflexivity.
  - intros i Hi Hok.
    assert (i ∈ [3; 2; 1]) as Hin by exact Hi.
    rewrite !elem_of_cons, elem_of_nil in Hin.
    destruct Hin as [->|[->|[->|[]]]]; vm_compute in Hok; discriminate Hok.
  - exact Hr.
Defined.
